(** * LanceDB Python helpers: the Pydantic-to-Arrow adapter and the URI helpers

    A shallow embedding of [python/lancedb/pydantic.py] and
    [python/lancedb/util.py], followed by the properties their specification
    states about them.

    Python objects the code only inspects (type annotations, classes) are
    data here; exceptions are an explicit error result.  The adapter is
    embedded a second time on a store of objects, where what a run changes
    can be told.  The libraries the code calls into (pyarrow's type
    factories, pydantic-core's validators and [urllib.parse.urlparse]) are
    modelled next to the code that calls them, each with a note on what is
    taken from the library. *)

From Stdlib Require Import ZArith List String Ascii Bool Lia.
Import ListNotations.

Local Open Scope string_scope.
Local Open Scope Z_scope.

#[local] Set Warnings "-register-all".

(* ===================================================================== *)
(** * pyarrow: the data types the adapter builds *)
(* ===================================================================== *)

Module PyArrow.

(** [pa.DataType] and [pa.Field].  The adapter builds [int64], [float64],
    [utf8], [bool_], [binary], lists, fixed-size lists and structs;
    [float32] is the default element type of [vector]. *)
Inductive DataType : Type :=
  | int64
  | float64
  | float32
  | utf8
  | bool_
  | binary
  | list_ (value_type : DataType)
  | fixed_size_list (value_type : DataType) (list_size : Z)
  | struct (fields : list Field)
with Field : Type :=
  | field (name : string) (type : DataType) (nullable : bool).

(** [pa.Schema]: an ordered list of fields. *)
Record Schema : Type := schema { schema_fields : list Field }.

End PyArrow.
Export PyArrow.

(* ===================================================================== *)
(** * Python type annotations *)
(* ===================================================================== *)

(** The built-in classes the code compares annotations with, and a few more
    that occur as origins or arguments of generic aliases. *)
Inductive builtin_class : Type :=
  | c_int | c_float | c_str | c_bool | c_bytes
  | c_list | c_dict | c_tuple | c_NoneType.

(** What a subclass of [FixedSizeListMixin] answers from its two static
    methods.  [None] is a method the class does not override: the call
    reaches the abstract method of the mixin, whose body is
    [raise NotImplementedError]. *)
Record FixedSizeListImpl : Type := mixin_impl {
  impl_dim : option Z;
  impl_value_arrow_type : option DataType
}.

(** The two kinds of parameterized alias the code tests for with
    [isinstance]: [typing._GenericAlias] ([List[int]], [Optional[str]],
    [Dict[str, int]]) and [types.GenericAlias] ([list[int]]). *)
Inductive alias_kind : Type :=
  | typing_GenericAlias
  | types_GenericAlias.

(** A value found in [FieldInfo.annotation].

    - [builtin c] and [user_class] are classes ([inspect.isclass]);
      [user_class] is a class that does not derive from
      [pydantic.BaseModel], with what it implements of
      [FixedSizeListMixin], if it derives from it;
    - [model_class m] is a subclass of [pydantic.BaseModel];
    - [typing_Union] is the special form [typing.Union], [typing_special]
      any other special form ([Any], [Literal], ...);
    - [generic_alias k origin args] has [__origin__ = origin] and
      [__args__ = args];
    - [union_type args] is a PEP 604 union [X | Y] ([types.UnionType]);
    - [other_object] is anything else (a type variable, a string, ...).

    [model_fields] of a model is the insertion-ordered dict of its declared
    fields, kept as an association list in declaration order.  Models are
    finite trees here: a model that refers to itself is not represented.
    The embedding on the object store, [Store] below, has the classes at
    addresses and represents it. *)
Inductive py_type : Type :=
  | builtin (c : builtin_class)
  | user_class (name : string) (mixin : option FixedSizeListImpl)
  | model_class (m : BaseModel)
  | typing_Union
  | typing_special (name : string)
  | generic_alias (kind : alias_kind) (origin : py_type) (args : list py_type)
  | union_type (args : list py_type)
  | other_object (repr : string)
with FieldInfo : Type :=
  | Build_FieldInfo (annotation : py_type)
with BaseModel : Type :=
  | Build_BaseModel (name : string)
                    (model_fields : list (string * FieldInfo))
                    (mixin : option FixedSizeListImpl).

Definition annotation (f : FieldInfo) : py_type :=
  match f with Build_FieldInfo a => a end.

Definition model_fields (m : BaseModel) : list (string * FieldInfo) :=
  match m with Build_BaseModel _ fs _ => fs end.

Definition model_mixin (m : BaseModel) : option FixedSizeListImpl :=
  match m with Build_BaseModel _ _ mx => mx end.

(* ===================================================================== *)
(** * Exceptions *)
(* ===================================================================== *)

(** What a [TypeError] says: [unsupported_type t] is the message of
    [_py_type_to_arrow_type], which ends with the formatted [t];
    [not_iterable] is that of [list] called on a value it cannot iterate. *)
Inductive type_error : Type :=
  | unsupported_type (t : py_type)
  | not_iterable.

(** The exceptions that can leave the modelled code. *)
Inductive exn : Type :=
  | TypeError (msg : type_error)
  | IndexError
  | ValueError (msg : string)
  | OverflowError
  | NotImplementedError
  | ValidationError.

Inductive result (A : Type) : Type :=
  | Ok (a : A)
  | Raise (e : exn).
Arguments Ok {A} a.
Arguments Raise {A} e.

Definition bind {A B : Type} (c : result A) (k : A -> result B) : result B :=
  match c with
  | Ok a => k a
  | Raise e => Raise e
  end.

Notation "x <- c ;; k" := (bind c (fun x => k))
  (at level 61, c at next level, right associativity).
Notation "' pat <- c ;; k" :=
  (bind c (fun x => match x with pat => k end))
  (at level 61, pat pattern, c at next level, right associativity).

Section MapM.
Context {A B : Type} (f : A -> result B).

(** A [for] loop that appends [f x] for each [x], left to right; the
    first exception ends the loop and nothing is returned. *)
Fixpoint mapM (l : list A) : result (list B) :=
  match l with
  | [] => Ok []
  | x :: rest =>
      y <- f x ;;
      ys <- mapM rest ;;
      Ok (y :: ys)
  end.
End MapM.

(** [args[i]] on a tuple. *)
Definition getitem {A : Type} (args : list A) (i : nat) : result A :=
  match nth_error args i with
  | Some a => Ok a
  | None => Raise IndexError
  end.

(* ===================================================================== *)
(** * lancedb/pydantic.py *)
(* ===================================================================== *)

(** [pa.list_(value_type, list_size=-1)].  pyarrow returns a variable-size
    list type for [list_size = -1] and a fixed-size list type for any other
    [list_size] that is not negative, zero included; it rejects the other
    negative sizes, and [list_size] is a C [int].  The [value_type] is a
    [DataType]: what pyarrow does with another object is not modelled. *)
Definition pa_list_ (value_type : DataType) (list_size : Z) : result DataType :=
  if (list_size <? - 2 ^ 31) || (2 ^ 31 <=? list_size) then Raise OverflowError
  else if list_size =? -1 then Ok (list_ value_type)
  else if list_size <? 0 then
    Raise (ValueError "list_size should be a positive integer")
  else Ok (fixed_size_list value_type list_size).

(** The class [FixedSizeList] that [vector] defines and returns: a [list]
    subclass implementing [FixedSizeListMixin] with the two arguments. *)
Definition FixedSizeList (dim : Z) (value_type : DataType) : py_type :=
  user_class "FixedSizeList" (Some (mixin_impl (Some dim) (Some value_type))).

(** The default of the parameter [value_type] of [vector]: [None] is the
    omitted argument. *)
Definition value_type_or_default (value_type : option DataType) : DataType :=
  match value_type with
  | Some t => t
  | None => float32
  end.

(** [vector(dim, value_type=pa.float32())]. *)
Definition vector (dim : Z) (value_type : option DataType) : py_type :=
  FixedSizeList dim (value_type_or_default value_type).

(** [issubclass(cls, FixedSizeListMixin)], with the implementation when it
    holds. *)
Definition fixed_size_list_mixin (t : py_type) : option FixedSizeListImpl :=
  match t with
  | user_class _ mx => mx
  | model_class m => model_mixin m
  | _ => None
  end.

(** The static methods [dim()] and [value_arrow_type()] of a class, where
    the class implements them. *)
Definition dim (cls : py_type) : option Z :=
  match fixed_size_list_mixin cls with
  | Some impl => impl_dim impl
  | None => None
  end.

Definition value_arrow_type (cls : py_type) : option DataType :=
  match fixed_size_list_mixin cls with
  | Some impl => impl_value_arrow_type impl
  | None => None
  end.

(** Calling a static method of a subclass of the mixin. *)
Definition call_static {A : Type} (method : option A) : result A :=
  match method with
  | Some a => Ok a
  | None => Raise NotImplementedError
  end.

Definition _py_type_to_arrow_type (py_type : py_type) : result DataType :=
  match py_type with
  | builtin c_int => Ok int64
  | builtin c_float => Ok float64
  | builtin c_str => Ok utf8
  | builtin c_bool => Ok bool_
  | builtin c_bytes => Ok binary
  | _ => Raise (TypeError (unsupported_type py_type))
  end.

(** [origin == list] and [origin == Union]. *)
Definition eq_list (origin : py_type) : bool :=
  match origin with builtin c_list => true | _ => false end.

Definition eq_Union (origin : py_type) : bool :=
  match origin with typing_Union => true | _ => false end.

(** [t == type(None)]. *)
Definition eq_NoneType (t : py_type) : bool :=
  match t with builtin c_NoneType => true | _ => false end.

Definition is_nullable (field : FieldInfo) : bool :=
  match annotation field with
  | generic_alias typing_GenericAlias origin args =>
      if eq_Union origin then
        match args with
        | [_; a1] => eq_NoneType a1
        | _ => false
        end
      else false
  | _ => false
  end.

(** [_pydantic_model_to_fields] and [_pydantic_to_arrow_type] call each
    other.  The loop body of the first is the body of [_pydantic_to_field]
    (defined below, see [_pydantic_model_to_fields_eq]).

    In [_pydantic_to_arrow_type] the first test accepts both kinds of alias:
    a [types.GenericAlias] exists only on interpreters for which
    [sys.version_info > (3, 9)] holds.  An alias that neither branch returns
    from falls through to the last line, the scalar mapping.  The second
    test is [inspect.isclass]: a subclass of [BaseModel] first, then a
    subclass of [FixedSizeListMixin], then again the scalar mapping.  The
    arguments of [pa.list_] are evaluated from left to right:
    [value_arrow_type()] is called before [dim()]. *)
Fixpoint _pydantic_model_to_fields (model : BaseModel) : result (list Field) :=
  match model with
  | Build_BaseModel _ fields _ =>
      mapM (fun item : string * FieldInfo =>
              let (name, fld) := item in
              dt <- _pydantic_to_arrow_type fld ;;
              Ok (field name dt (is_nullable fld)))
           fields
  end
with _pydantic_to_arrow_type (fld : FieldInfo) : result DataType :=
  match fld with
  | Build_FieldInfo ann =>
      match ann with
      | generic_alias _ origin args =>
          if eq_list origin then
            child <- getitem args 0 ;;
            vt <- _py_type_to_arrow_type child ;;
            pa_list_ vt (-1)
          else if eq_Union origin then
            match args with
            | [a0; a1] =>
                if eq_NoneType a1 then _py_type_to_arrow_type a0
                else _py_type_to_arrow_type ann
            | _ => _py_type_to_arrow_type ann
            end
          else _py_type_to_arrow_type ann
      | model_class m =>
          fields <- _pydantic_model_to_fields m ;;
          Ok (struct fields)
      | builtin _ | user_class _ _ =>
          match fixed_size_list_mixin ann with
          | Some impl =>
              value_type <- call_static (impl_value_arrow_type impl) ;;
              list_size <- call_static (impl_dim impl) ;;
              pa_list_ value_type list_size
          | None => _py_type_to_arrow_type ann
          end
      | _ => _py_type_to_arrow_type ann
      end
  end.

Definition _pydantic_to_field (name : string) (fld : FieldInfo) : result Field :=
  dt <- _pydantic_to_arrow_type fld ;;
  Ok (field name dt (is_nullable fld)).

Definition pydantic_to_schema (model : BaseModel) : result Schema :=
  fields <- _pydantic_model_to_fields model ;;
  Ok (schema fields).

(* ===================================================================== *)
(** * Validation of vector instances *)
(* ===================================================================== *)

Module PydanticCore.

(** The core schemas [vector] builds with [pydantic_core.core_schema]:
    [float_schema()], [list_schema(items_schema, min_length, max_length)]
    and [no_info_after_validator_function(function, schema)], whose
    function is always the class to construct. *)
Inductive CoreSchema : Type :=
  | float_schema
  | list_schema (items_schema : CoreSchema) (min_length max_length : option Z)
  | no_info_after_validator_function (function : py_type) (schema : CoreSchema).

(** Python values handed to a validator.  A float is kept as its text;
    [py_instance cls items] is an instance of the [list] subclass [cls]. *)
Inductive py_value : Type :=
  | py_none
  | py_bool (b : bool)
  | py_int (n : Z)
  | py_float (repr : string)
  | py_str (s : string)
  | py_list (items : list py_value)
  | py_instance (cls : py_type) (items : list py_value).

Section Validate.
(** pydantic-core's validator for [float_schema()], taken as given: which
    inputs it accepts, and what it turns them into, is the library's
    business. *)
Variable float_validator : py_value -> result py_value.

Definition length_ok (min_length max_length : option Z) (n : nat) : bool :=
  match min_length with
  | Some lo => lo <=? Z.of_nat n
  | None => true
  end
  &&
  match max_length with
  | Some hi => Z.of_nat n <=? hi
  | None => true
  end.

(** The items of a list, or of an instance of a subclass of [list]. *)
Definition list_items (v : py_value) : option (list py_value) :=
  match v with
  | py_list items | py_instance _ items => Some items
  | _ => None
  end.

(** Calling a [list] subclass on a list. *)
Definition construct (cls : py_type) (v : py_value) : result py_value :=
  match list_items v with
  | Some items => Ok (py_instance cls items)
  | None => Raise (TypeError not_iterable)
  end.

(** How pydantic-core runs the three schemas: a list schema takes a list
    (or an instance of a subclass), checks the length bounds and validates
    every item, and fails with a [ValidationError]; an after-validator runs
    the inner schema and then calls the function on its output. *)
Fixpoint validate (s : CoreSchema) (v : py_value) : result py_value :=
  match s with
  | float_schema => float_validator v
  | list_schema items_schema min_length max_length =>
      match list_items v with
      | Some items =>
          if length_ok min_length max_length (List.length items) then
            out <- mapM (validate items_schema) items ;;
            Ok (py_list out)
          else Raise ValidationError
      | None => Raise ValidationError
      end
  | no_info_after_validator_function function inner =>
      out <- validate inner v ;;
      construct function out
  end.
End Validate.

End PydanticCore.
Export PydanticCore.

(** [FixedSizeList.__get_pydantic_core_schema__] of the class
    [vector(dim, value_type)] returns. *)
Definition __get_pydantic_core_schema__ (dim : Z) (value_type : DataType)
  : CoreSchema :=
  no_info_after_validator_function
    (FixedSizeList dim value_type)
    (list_schema float_schema (Some dim) (Some dim)).

(** Validating [v] as a field declared [vector(dim, value_type)]. *)
Definition validate_vector (float_validator : py_value -> result py_value)
    (dim : Z) (value_type : option DataType) (v : py_value) : result py_value :=
  validate float_validator
    (__get_pydantic_core_schema__ dim (value_type_or_default value_type)) v.

(* ===================================================================== *)
(** * urllib.parse.urlparse *)
(* ===================================================================== *)

(** The parser [lancedb/util.py] calls, after CPython 3.11's
    [Lib/urllib/parse.py] with [scheme=''] and [allow_fragments=True].

    A [str] is a [string].  The parser tells characters apart below 128
    only: it strips and removes control characters and the space, tests the
    first character for an ASCII letter and the scheme for ASCII scheme
    characters, and splits at ASCII delimiters.  A character from 128 on
    stands for a code point outside ASCII; what the Unicode normalization
    of [_checknetloc] makes of a netloc holding such characters is left to
    the library, see [netloc_checks].  The result cache is left out. *)
Module UrlLib.

Local Open Scope char_scope.

Record ParseResult : Type := Build_ParseResult {
  scheme : string;
  netloc : string;
  path : string;
  params : string;
  query : string;
  fragment : string
}.

(** [s.find(c)], [None] for [-1]. *)
Fixpoint find (c : ascii) (s : string) : option nat :=
  match s with
  | EmptyString => None
  | String a rest =>
      if Ascii.eqb a c then Some O else option_map S (find c rest)
  end.

(** [s.rfind(c)]. *)
Fixpoint rfind (c : ascii) (s : string) : option nat :=
  match s with
  | EmptyString => None
  | String a rest =>
      match rfind c rest with
      | Some i => Some (S i)
      | None => if Ascii.eqb a c then Some O else None
      end
  end.

(** [s[:n]] and [s[n:]]. *)
Fixpoint take (n : nat) (s : string) : string :=
  match n, s with
  | S n', String a rest => String a (take n' rest)
  | _, _ => EmptyString
  end.

Fixpoint drop (n : nat) (s : string) : string :=
  match n, s with
  | S n', String _ rest => drop n' rest
  | _, _ => s
  end.

(** [s.find(c, start)]. *)
Definition find_from (c : ascii) (s : string) (start : nat) : option nat :=
  option_map (Nat.add start) (find c (drop start s)).

(** [c in s]. *)
Definition contains (c : ascii) (s : string) : bool :=
  match find c s with Some _ => true | None => false end.

Definition code (c : ascii) : N := N_of_ascii c.

(** [s.isascii()]. *)
Fixpoint isascii (s : string) : bool :=
  match s with
  | EmptyString => true
  | String a rest => (code a <? 128)%N && isascii rest
  end.

(** [s.lstrip(_WHATWG_C0_CONTROL_OR_SPACE)]: the code points up to 0x20. *)
Fixpoint lstrip_c0 (s : string) : string :=
  match s with
  | String a rest => if (code a <=? 32)%N then lstrip_c0 rest else s
  | EmptyString => s
  end.

(** [s.replace(b, '')] for each [b] of [_UNSAFE_URL_BYTES_TO_REMOVE]. *)
Fixpoint remove_unsafe (s : string) : string :=
  match s with
  | EmptyString => EmptyString
  | String a rest =>
      if (code a =? 9)%N || (code a =? 13)%N || (code a =? 10)%N
      then remove_unsafe rest
      else String a (remove_unsafe rest)
  end.

Definition is_upper (c : ascii) : bool := (65 <=? code c)%N && (code c <=? 90)%N.
Definition is_lower (c : ascii) : bool := (97 <=? code c)%N && (code c <=? 122)%N.
Definition is_digit (c : ascii) : bool := (48 <=? code c)%N && (code c <=? 57)%N.

(** [c.isascii() and c.isalpha()]. *)
Definition is_ascii_alpha (c : ascii) : bool := is_upper c || is_lower c.

(** [c in scheme_chars]: letters, digits and [+-.]. *)
Definition in_scheme_chars (c : ascii) : bool :=
  is_ascii_alpha c || is_digit c
  || Ascii.eqb c "+" || Ascii.eqb c "-" || Ascii.eqb c ".".

Fixpoint all_in_scheme_chars (s : string) : bool :=
  match s with
  | EmptyString => true
  | String a rest => in_scheme_chars a && all_in_scheme_chars rest
  end.

(** [s.lower()], on the characters a scheme can hold. *)
Definition lower_char (c : ascii) : ascii :=
  if is_upper c then ascii_of_N (code c + 32) else c.

Fixpoint lower (s : string) : string :=
  match s with
  | EmptyString => EmptyString
  | String a rest => String (lower_char a) (lower rest)
  end.

Definition uses_params : list string :=
  [EmptyString; "ftp"; "hdl"; "prospero"; "http"; "imap"; "https"; "shttp"; "rtsp";
   "rtspu"; "sip"; "sips"; "mms"; "sftp"; "tel"]%string.

Definition in_list (s : string) (l : list string) : bool :=
  existsb (String.eqb s) l.

(** [_splitnetloc(url, 2)]: the netloc runs from index 2 to the first of
    [/], [?] and [#]. *)
Definition _splitnetloc (url : string) : string * string :=
  let earliest (delim : nat) (c : ascii) : nat :=
    match find_from c url 2 with
    | Some wdelim => Nat.min delim wdelim
    | None => delim
    end in
  let delim := fold_left earliest ["/"; "?"; "#"] (String.length url) in
  (take (delim - 2) (drop 2 url), drop delim url).

(** [s.split(c, 1)] when [c in s]. *)
Definition split_once (c : ascii) (s : string) : string * string :=
  match find c s with
  | Some i => (take i s, drop (S i) s)
  | None => (s, EmptyString)
  end.

Definition _splitparams (url : string) : string * string :=
  let cut (i : nat) := (take i url, drop (S i) url) in
  match rfind "/" url with
  | Some slash =>
      match find_from ";" url slash with
      | Some i => cut i
      | None => (url, EmptyString)
      end
  | None =>
      match find ";" url with
      | Some i => cut i
      | None => (take (String.length url - 1) url, url)   (* i = -1 *)
      end
  end.

(** The two checks of a netloc that are left to the library.

    - [_check_bracketed_netloc], run on a netloc that holds both [[] and
      []]: [None] when it returns, the message when it raises
      [ValueError].  It parses the bracketed host as an IP address.
    - [nfkc_adds_delimiter], the test [_checknetloc] makes of a netloc that
      is not ASCII: whether NFKC normalization changes the netloc, taken
      without its [@ : # ?], and brings one of [/ ? # @ :] into it. *)
Record netloc_checks : Type := Build_netloc_checks {
  _check_bracketed_netloc : string -> option string;
  nfkc_adds_delimiter : string -> bool
}.

(** Checks that find no fault with any netloc. *)
Definition accepting : netloc_checks :=
  Build_netloc_checks (fun _ => None) (fun _ => false).

Section Parse.
Variable lib : netloc_checks.

(** [_checknetloc(netloc)] returns at once on an empty and on an ASCII
    netloc. *)
Definition _checknetloc (netloc : string) : result unit :=
  if String.eqb netloc EmptyString || isascii netloc then Ok tt
  else if nfkc_adds_delimiter lib netloc then
    Raise (ValueError
             ("netloc '" ++ netloc
              ++ "' contains invalid characters under NFKC normalization"))
  else Ok tt.

Definition urlsplit (url : string)
  : result (string * string * string * string * string) :=
  let url := remove_unsafe (lstrip_c0 url) in
  let '(scheme, url) :=
    match find ":" url, url with
    | Some (S i'), String first _ =>
        let i := S i' in
        if is_ascii_alpha first && all_in_scheme_chars (take i url)
        then (lower (take i url), drop (S i) url)
        else (EmptyString, url)
    | _, _ => (EmptyString, url)
    end in
  '(netloc, url) <-
    (if String.eqb (take 2 url) "//" then
       let '(netloc, rest) := _splitnetloc url in
       if (contains "[" netloc && negb (contains "]" netloc))
          || (contains "]" netloc && negb (contains "[" netloc))
       then Raise (ValueError "Invalid IPv6 URL")
       else if contains "[" netloc && contains "]" netloc
       then match _check_bracketed_netloc lib netloc with
            | Some msg => Raise (ValueError msg)
            | None => Ok (netloc, rest)
            end
       else Ok (netloc, rest)
     else Ok (EmptyString, url)) ;;
  let '(url, fragment) :=
    if contains "#" url then split_once "#" url else (url, EmptyString) in
  let '(url, query) :=
    if contains "?" url then split_once "?" url else (url, EmptyString) in
  _ <- _checknetloc netloc ;;
  Ok (scheme, netloc, url, query, fragment).

Definition urlparse (url : string) : result ParseResult :=
  '(scheme, netloc, url, query, fragment) <- urlsplit url ;;
  let '(url, params) :=
    if in_list scheme uses_params && contains ";" url
    then _splitparams url
    else (url, EmptyString) in
  Ok (Build_ParseResult scheme netloc url params query fragment).
End Parse.

End UrlLib.

(* ===================================================================== *)
(** * lancedb/util.py *)
(* ===================================================================== *)

Section Util.
(** The checks of the parser that are left to the library, see [UrlLib]. *)
Variable lib : UrlLib.netloc_checks.

Let urlparse := UrlLib.urlparse lib.

Definition get_uri_scheme (uri : string) : result string :=
  parsed <- urlparse uri ;;
  let scheme := UrlLib.scheme parsed in
  Ok (if String.eqb scheme EmptyString
      then "file"
      else if UrlLib.in_list scheme ["s3a"; "s3n"]
      then "s3"
      else if (String.length scheme =? 1)%nat
      then "file"
      else scheme).

Definition get_uri_location (uri : string) : result string :=
  parsed <- urlparse uri ;;
  if String.eqb (UrlLib.netloc parsed) EmptyString
  then Ok (UrlLib.path parsed)
  else Ok (UrlLib.netloc parsed ++ UrlLib.path parsed).
End Util.

(* ===================================================================== *)
(** * The adapter on the object store *)
(* ===================================================================== *)

(** The same functions of [lancedb/pydantic.py], with the objects they
    touch kept in a store: a class is an object at an address, whose
    attributes any code can assign to, and [_pydantic_model_to_fields]
    builds its result in a list object that it creates and appends to.
    This is the embedding in which it can be said what a run changes and
    what its result depends on. *)
Module Store.

Definition ref : Type := nat.

(** A value found in [FieldInfo.annotation], as in [py_type]; a class the
    program defines is named by the address of its class object. *)
Inductive stored_type : Type :=
  | s_builtin (c : builtin_class)
  | s_class (address : ref)
  | s_Union
  | s_special (name : string)
  | s_alias (kind : alias_kind) (origin : stored_type) (args : list stored_type)
  | s_union_type (args : list stored_type)
  | s_other (repr : string).

(** A class object: its name, its [model_fields] if it derives from
    [pydantic.BaseModel] (the annotation of every declared field, in
    declaration order), and what it implements of [FixedSizeListMixin] if
    it derives from it. *)
Record class_object : Type := Build_class_object {
  class_name : string;
  class_model_fields : option (list (string * stored_type));
  class_mixin : option FixedSizeListImpl
}.

(** The objects of the store: classes, and Python lists of [pa.Field]. *)
Inductive object : Type :=
  | Class (c : class_object)
  | List (items : list Field).

Definition store : Type := list object.

(** The exceptions of a run.  [UnsupportedType t] is the [TypeError] that
    [_py_type_to_arrow_type] raises on [t]; [Other e] is an exception of a
    call that does not touch the store ([args[0]], [pa.list_], a static
    method of the mixin); [AttributeError] is raised by reading
    [model_fields] from an object that has none; [RecursionError] is raised
    when the calls are nested deeper than the interpreter allows. *)
Inductive error : Type :=
  | UnsupportedType (t : stored_type)
  | Other (e : exn)
  | AttributeError
  | RecursionError.

Inductive outcome (A : Type) : Type :=
  | Return (a : A)
  | Raised (e : error).
Arguments Return {A} a.
Arguments Raised {A} e.

(** A computation on the store. *)
Definition M (A : Type) : Type := store -> outcome A * store.

Definition ret {A : Type} (a : A) : M A := fun s => (Return a, s).

Definition raise {A : Type} (e : error) : M A := fun s => (Raised e, s).

Definition bindM {A B : Type} (m : M A) (k : A -> M B) : M B := fun s =>
  match m s with
  | (Return a, s') => k a s'
  | (Raised e, s') => (Raised e, s')
  end.

Notation "x <~ c ;; k" := (bindM c (fun x => k))
  (at level 61, c at next level, right associativity).

(** A call that does not touch the store. *)
Definition lift {A : Type} (c : result A) : M A :=
  match c with
  | Ok a => ret a
  | Raise e => raise (Other e)
  end.

(** Creating an object: it gets the next free address. *)
Definition alloc (o : object) : M ref := fun s =>
  (Return (List.length s), (s ++ [o])%list).

Definition lookup (r : ref) : M (option object) := fun s =>
  (Return (nth_error s r), s).

Fixpoint update (s : store) (r : ref) (o : object) : store :=
  match s, r with
  | [], _ => []
  | _ :: rest, O => o :: rest
  | x :: rest, S r' => x :: update rest r' o
  end.

(** [fields.append(f)]: the list object at [fields] is changed in place. *)
Definition list_append (fields : ref) (f : Field) : M unit := fun s =>
  match nth_error s fields with
  | Some (List items) => (Return tt, update s fields (List (items ++ [f])%list))
  | _ => (Raised AttributeError, s)
  end.

(** Reading the items of a list object, as [pa.struct] and [pa.schema] do
    with the list they are given. *)
Definition list_items (fields : ref) : M (list Field) :=
  o <~ lookup fields ;;
  match o with
  | Some (List items) => ret items
  | _ => raise (Other (TypeError not_iterable))
  end.

(** [model.model_fields.items()].  The items are read when the loop
    starts. *)
Definition get_model_fields (model : ref) : M (list (string * stored_type)) :=
  o <~ lookup model ;;
  match o with
  | Some (Class c) =>
      match class_model_fields c with
      | Some items => ret items
      | None => raise AttributeError
      end
  | _ => raise AttributeError
  end.

Section ForEach.
Context {A : Type} (body : A -> M unit).

(** A [for] loop. *)
Fixpoint for_each (l : list A) : M unit :=
  match l with
  | [] => ret tt
  | x :: rest => _ <~ body x ;; for_each rest
  end.
End ForEach.

Definition _py_type_to_arrow_type (py_type : stored_type) : M DataType :=
  match py_type with
  | s_builtin c_int => ret int64
  | s_builtin c_float => ret float64
  | s_builtin c_str => ret utf8
  | s_builtin c_bool => ret bool_
  | s_builtin c_bytes => ret binary
  | _ => raise (UnsupportedType py_type)
  end.

Definition eq_list (origin : stored_type) : bool :=
  match origin with s_builtin c_list => true | _ => false end.

Definition eq_Union (origin : stored_type) : bool :=
  match origin with s_Union => true | _ => false end.

Definition eq_NoneType (t : stored_type) : bool :=
  match t with s_builtin c_NoneType => true | _ => false end.

Definition is_nullable (annotation : stored_type) : bool :=
  match annotation with
  | s_alias typing_GenericAlias origin args =>
      if eq_Union origin then
        match args with
        | [_; a1] => eq_NoneType a1
        | _ => false
        end
      else false
  | _ => false
  end.

Section Calls.
(** The call of [_pydantic_model_to_fields] from
    [_pydantic_to_arrow_type]. *)
Variable call_pydantic_model_to_fields : ref -> M ref.

Definition _pydantic_to_arrow_type (annotation : stored_type) : M DataType :=
  match annotation with
  | s_alias _ origin args =>
      if eq_list origin then
        child <~ lift (getitem args 0) ;;
        vt <~ _py_type_to_arrow_type child ;;
        lift (pa_list_ vt (-1))
      else if eq_Union origin then
        match args with
        | [a0; a1] =>
            if eq_NoneType a1 then _py_type_to_arrow_type a0
            else _py_type_to_arrow_type annotation
        | _ => _py_type_to_arrow_type annotation
        end
      else _py_type_to_arrow_type annotation
  | s_class address =>
      o <~ lookup address ;;
      match o with
      | Some (Class c) =>
          match class_model_fields c, class_mixin c with
          | Some _, _ =>
              fields <~ call_pydantic_model_to_fields address ;;
              items <~ list_items fields ;;
              ret (struct items)
          | None, Some impl =>
              value_type <~ lift (call_static (impl_value_arrow_type impl)) ;;
              list_size <~ lift (call_static (impl_dim impl)) ;;
              lift (pa_list_ value_type list_size)
          | None, None => _py_type_to_arrow_type annotation
          end
      | _ => _py_type_to_arrow_type annotation
      end
  | _ => _py_type_to_arrow_type annotation
  end.

Definition _pydantic_to_field (name : string) (annotation : stored_type)
  : M Field :=
  dt <~ _pydantic_to_arrow_type annotation ;;
  ret (field name dt (is_nullable annotation)).

(** The body of [_pydantic_model_to_fields]: [fields = []], the loop that
    appends to it, [return fields]. *)
Definition _pydantic_model_to_fields_body (model : ref) : M ref :=
  fields <~ alloc (List []) ;;
  items <~ get_model_fields model ;;
  _ <~ for_each (fun item : string * stored_type =>
                   f <~ _pydantic_to_field (fst item) (snd item) ;;
                   list_append fields f)
                items ;;
  ret fields.
End Calls.

(** [depth] is the number of nested calls of [_pydantic_model_to_fields]
    the interpreter still allows. *)
Fixpoint _pydantic_model_to_fields (depth : nat) (model : ref) : M ref :=
  match depth with
  | O => raise RecursionError
  | S depth' =>
      _pydantic_model_to_fields_body (_pydantic_model_to_fields depth') model
  end.

Definition pydantic_to_schema (depth : nat) (model : ref) : M Schema :=
  fields <~ _pydantic_model_to_fields depth model ;;
  items <~ list_items fields ;;
  ret (schema items).

(** ** What a run reads *)

(** The class at an address, if the object there is a class. *)
Definition lookup_class (s : store) (r : ref) : option class_object :=
  match nth_error s r with
  | Some (Class c) => Some c
  | _ => None
  end.

(** Two stores hold the same classes at the same addresses. *)
Definition same_classes (s s' : store) : Prop :=
  forall r, lookup_class s r = lookup_class s' r.

Definition is_list (o : object) : Prop :=
  match o with
  | List _ => True
  | Class _ => False
  end.

Definition scalar_of (t : stored_type) : outcome DataType :=
  match t with
  | s_builtin c_int => Return int64
  | s_builtin c_float => Return float64
  | s_builtin c_str => Return utf8
  | s_builtin c_bool => Return bool_
  | s_builtin c_bytes => Return binary
  | _ => Raised (UnsupportedType t)
  end.

Definition lifted {A : Type} (c : result A) : outcome A :=
  match c with
  | Ok a => Return a
  | Raise e => Raised (Other e)
  end.

(** The fields of a model as a function of the classes alone: what a run
    returns, told without the store. *)
Section Classes.
Variable classes : ref -> option class_object.

Section Nested.
Variable fields_of_nested : ref -> outcome (list Field).

Definition type_of (annotation : stored_type) : outcome DataType :=
  match annotation with
  | s_alias _ origin args =>
      if eq_list origin then
        match args with
        | [] => Raised (Other IndexError)
        | child :: _ =>
            match scalar_of child with
            | Return vt => Return (list_ vt)
            | Raised e => Raised e
            end
        end
      else if eq_Union origin then
        match args with
        | [a0; a1] =>
            if eq_NoneType a1 then scalar_of a0 else scalar_of annotation
        | _ => scalar_of annotation
        end
      else scalar_of annotation
  | s_class address =>
      match classes address with
      | Some c =>
          match class_model_fields c, class_mixin c with
          | Some _, _ =>
              match fields_of_nested address with
              | Return items => Return (struct items)
              | Raised e => Raised e
              end
          | None, Some impl =>
              lifted (value_type <- call_static (impl_value_arrow_type impl) ;;
                      list_size <- call_static (impl_dim impl) ;;
                      pa_list_ value_type list_size)
          | None, None => scalar_of annotation
          end
      | None => scalar_of annotation
      end
  | _ => scalar_of annotation
  end.

Fixpoint fields_of_items (items : list (string * stored_type))
  : outcome (list Field) :=
  match items with
  | [] => Return []
  | (name, annotation) :: rest =>
      match type_of annotation with
      | Return dt =>
          match fields_of_items rest with
          | Return fs => Return (field name dt (is_nullable annotation) :: fs)
          | Raised e => Raised e
          end
      | Raised e => Raised e
      end
  end.
End Nested.

Fixpoint fields_of (depth : nat) (model : ref) : outcome (list Field) :=
  match depth with
  | O => Raised RecursionError
  | S depth' =>
      match classes model with
      | Some c =>
          match class_model_fields c with
          | Some items => fields_of_items (fields_of depth') items
          | None => Raised AttributeError
          end
      | None => Raised AttributeError
      end
  end.
End Classes.

(** What is shown of a call of [_pydantic_model_to_fields]: it leaves the
    store it found, followed by list objects; the list it returns holds the
    fields that the classes determine, and its exception is the one they
    determine. *)
Definition runs_as (call : ref -> M ref)
    (value : (ref -> option class_object) -> ref -> outcome (list Field))
  : Prop :=
  forall model s,
    exists new r,
      Forall is_list new /\
      call model s = (r, (s ++ new)%list) /\
      match r with
      | Return fields =>
          exists items,
            nth_error (s ++ new)%list fields = Some (List items) /\
            value (lookup_class s) model = Return items
      | Raised e => value (lookup_class s) model = Raised e
      end.

(** ** An example store *)

Definition Optional (x : stored_type) : stored_type :=
  s_alias typing_GenericAlias s_Union [x; s_builtin c_NoneType].

(** [class InnerModel(BaseModel): a: str; b: Optional[float]]. *)
Definition InnerModel : class_object :=
  Build_class_object "InnerModel"
    (Some [("a", s_builtin c_str); ("b", Optional (s_builtin c_float))]) None.

(** [id: int; s: Optional[str]; vec: List[float]; inner: InnerModel], with
    [InnerModel] at address 0. *)
Definition FooModel : class_object :=
  Build_class_object "FooModel"
    (Some [("id", s_builtin c_int);
           ("s", Optional (s_builtin c_str));
           ("vec", s_alias typing_GenericAlias (s_builtin c_list)
                     [s_builtin c_float]);
           ("inner", s_class 0%nat)]) None.

(** The two classes, and a list that some earlier code left behind. *)
Definition example_store : store :=
  [Class InnerModel; Class FooModel; List [field "left" int64 false]].

(** [class Node(BaseModel): value: int; next: Node], at address 0: a model
    that refers to itself. *)
Definition Node : class_object :=
  Build_class_object "Node"
    (Some [("value", s_builtin c_int); ("next", s_class 0%nat)]) None.

End Store.

(** ** Tree-shaped models in the store *)

Module Load.

Section LoadList.
Context {A B : Type} (load : A -> Store.store -> B * Store.store).

Fixpoint load_list (l : list A) (s : Store.store) : list B * Store.store :=
  match l with
  | [] => ([], s)
  | x :: rest =>
      let (y, s1) := load x s in
      let (ys, s2) := load_list rest s1 in
      (y :: ys, s2)
  end.
End LoadList.

(** The annotation [t] of the first embedding, with a class object made
    in the store for every class it names: the classes of the fields of a
    model before the model itself. *)
Fixpoint load_type (t : py_type) (s : Store.store)
  : Store.stored_type * Store.store :=
  match t with
  | builtin c => (Store.s_builtin c, s)
  | user_class name mixin =>
      (Store.s_class (List.length s),
       (s ++ [Store.Class (Store.Build_class_object name None mixin)])%list)
  | model_class m =>
      let (address, s1) := load_model m s in (Store.s_class address, s1)
  | typing_Union => (Store.s_Union, s)
  | typing_special name => (Store.s_special name, s)
  | generic_alias kind origin args =>
      let (origin', s1) := load_type origin s in
      let (args', s2) := load_list load_type args s1 in
      (Store.s_alias kind origin' args', s2)
  | union_type args =>
      let (args', s1) := load_list load_type args s in
      (Store.s_union_type args', s1)
  | other_object repr => (Store.s_other repr, s)
  end
with load_field (f : FieldInfo) (s : Store.store)
  : Store.stored_type * Store.store :=
  match f with
  | Build_FieldInfo annotation => load_type annotation s
  end
with load_model (m : BaseModel) (s : Store.store) : Store.ref * Store.store :=
  match m with
  | Build_BaseModel name fields mixin =>
      let (fields', s1) :=
        load_list (fun (item : string * FieldInfo) s0 =>
                     let (annotation, s1) := load_field (snd item) s0 in
                     ((fst item, annotation), s1))
                  fields s in
      (List.length s1,
       (s1 ++ [Store.Class
                 (Store.Build_class_object name (Some fields') mixin)])%list)
  end.

(** The result of the first embedding and the outcome of a run say the
    same: the same value, or the same exception (for the [TypeError] of an
    unsupported type, whose text names the type, that exception). *)
Definition agrees {A : Type} (tree : result A) (run : Store.outcome A) : Prop :=
  match tree, run with
  | Ok a, Store.Return b => a = b
  | Raise (TypeError (unsupported_type _)),
    Store.Raised (Store.UnsupportedType _) => True
  | Raise e, Store.Raised (Store.Other e') => e = e'
  | _, _ => False
  end.

(** The annotation [t], loaded into any store, is translated there as it is
    by the first embedding, under every bound on the nesting that is large
    enough, and whatever the store holds after it. *)
Definition type_agrees (t : py_type) : Prop :=
  forall s more,
    exists d0,
      forall d, (d0 <= d)%nat ->
        let classes :=
          Store.lookup_class (snd (load_type t s) ++ more)%list in
        agrees (_pydantic_to_arrow_type (Build_FieldInfo t))
               (Store.type_of classes (Store.fields_of classes d)
                  (fst (load_type t s))).

End Load.

(* ===================================================================== *)
(** * The specification's reading of the adapter *)
(* ===================================================================== *)

Module Spec.

(** A dispatch rule: [None] when the annotation does not have the rule's
    shape, otherwise what the rule maps it to. *)
Definition rule : Type := py_type -> option (result DataType).

(** The earliest rule that matches decides. *)
Fixpoint first_match (rs : list rule) (a : py_type) : option (result DataType) :=
  match rs with
  | [] => None
  | r :: rest =>
      match r a with
      | Some out => Some out
      | None => first_match rest a
      end
  end.

(** The arms of a union annotation, [typing.Union[...]] or [X | Y]. *)
Definition union_arms (a : py_type) : option (list py_type) :=
  match a with
  | generic_alias _ origin args => if eq_Union origin then Some args else None
  | union_type args => Some args
  | _ => None
  end.

(** An optional of one other type: a two-armed union, one arm of which is
    the none type. *)
Definition optional_of_one_other_type (a : py_type) : bool :=
  match union_arms a with
  | Some [x; y] => xorb (eq_NoneType x) (eq_NoneType y)
  | _ => false
  end.

(** A list size pyarrow makes a fixed-size list of. *)
Definition valid_list_size (n : Z) : bool := (0 <=? n) && (n <? 2 ^ 31).

(** ** The five rules *)

(** Rule 1: a parameterized list annotation maps to the list of its
    element's scalar type. *)
Definition rule_list : rule := fun a =>
  match a with
  | generic_alias _ origin (element :: _) =>
      if eq_list origin
      then Some (vt <- _py_type_to_arrow_type element ;; Ok (list_ vt))
      else None
  | _ => None
  end.

(** Rule 2, by position: a union alias of two arms whose second arm is the
    none type, the shape of [Optional[X]], maps to the scalar type of its
    first arm. *)
Definition rule_optional : rule := fun a =>
  match a with
  | generic_alias _ origin [inner; none] =>
      if eq_Union origin && eq_NoneType none
      then Some (_py_type_to_arrow_type inner)
      else None
  | _ => None
  end.

(** Rule 2, in the words of the specification: an optional of one other
    type, whichever arm the none type is, maps to the scalar type of the
    other arm. *)
Definition rule_optional_as_stated : rule := fun a =>
  if optional_of_one_other_type a then
    match union_arms a with
    | Some [x; y] => Some (_py_type_to_arrow_type (if eq_NoneType x then y else x))
    | _ => None
    end
  else None.

(** Rule 3: a nested model maps to the struct of its fields. *)
Definition rule_model : rule := fun a =>
  match a with
  | model_class m =>
      Some (fields <- _pydantic_model_to_fields m ;; Ok (struct fields))
  | _ => None
  end.

(** Rule 4: a subclass of the vector mixin maps to what [pa.list_] makes of
    its element type and its dimension; a subclass that leaves one of the
    two abstract has neither, and the call fails. *)
Definition rule_vector : rule := fun a =>
  match fixed_size_list_mixin a with
  | Some impl =>
      Some match impl_value_arrow_type impl, impl_dim impl with
           | Some elementType, Some n => pa_list_ elementType n
           | _, _ => Raise NotImplementedError
           end
  | None => None
  end.

(** Rule 4, in the words of the specification: a type carrying the marker,
    which is its element type and its dimension, maps to the fixed-size
    list of the two. *)
Definition rule_vector_as_stated : rule := fun a =>
  match fixed_size_list_mixin a with
  | Some impl =>
      match impl_value_arrow_type impl, impl_dim impl with
      | Some elementType, Some n => Some (Ok (fixed_size_list elementType n))
      | _, _ => None
      end
  | None => None
  end.

(** Rule 5: anything is handed to the scalar mapping. *)
Definition rule_scalar : rule := fun a => Some (_py_type_to_arrow_type a).

Definition rules : list rule :=
  [rule_list; rule_optional; rule_model; rule_vector; rule_scalar].

Definition fieldType (a : py_type) : option (result DataType) :=
  first_match rules a.

Definition rules_as_stated : list rule :=
  [rule_list; rule_optional_as_stated; rule_model; rule_vector_as_stated;
   rule_scalar].

Definition fieldType_as_stated (a : py_type) : option (result DataType) :=
  first_match rules_as_stated a.

(** ** Side conditions *)

(** A list annotation that has an element type: [__args__] is not empty. *)
Definition has_element_type (a : py_type) : bool :=
  match a with
  | generic_alias _ origin [] => negb (eq_list origin)
  | _ => true
  end.

(** A vector class implements both static methods, and its dimension is a
    size of a fixed-size list.  (A model is translated as a struct,
    whatever else it derives from.) *)
Definition valid_dim (a : py_type) : bool :=
  match a with
  | user_class _ (Some impl) =>
      match impl_value_arrow_type impl, impl_dim impl with
      | Some _, Some n => valid_list_size n
      | _, _ => false
      end
  | _ => true
  end.

(** Both conditions, on every annotation of a model and of the models
    nested in it. *)
Fixpoint well_formed_model (m : BaseModel) : bool :=
  match m with
  | Build_BaseModel _ fields _ =>
      forallb (fun item : string * FieldInfo => well_formed_field (snd item))
              fields
  end
with well_formed_field (fld : FieldInfo) : bool :=
  match fld with
  | Build_FieldInfo ann =>
      has_element_type ann && valid_dim ann &&
      match ann with
      | model_class m => well_formed_model m
      | _ => true
      end
  end.

(** The five scalar annotations and their Arrow types. *)
Definition scalar_table : list (builtin_class * DataType) :=
  [(c_int, int64); (c_float, float64); (c_str, utf8); (c_bool, bool_);
   (c_bytes, binary)].

End Spec.

(* ===================================================================== *)
(** * Annotations and models used in the examples *)
(* ===================================================================== *)

Module Examples.

Definition List_ (x : py_type) : py_type :=
  generic_alias typing_GenericAlias (builtin c_list) [x].

Definition Optional (x : py_type) : py_type :=
  generic_alias typing_GenericAlias typing_Union [x; builtin c_NoneType].

Definition Union2 (x y : py_type) : py_type :=
  generic_alias typing_GenericAlias typing_Union [x; y].

Definition int := builtin c_int.
Definition float := builtin c_float.
Definition str := builtin c_str.
Definition NoneType := builtin c_NoneType.

(** [class InnerModel(BaseModel): a: str; b: Optional[float]]. *)
Definition InnerModel : BaseModel :=
  Build_BaseModel "InnerModel"
    [("a", Build_FieldInfo str); ("b", Build_FieldInfo (Optional float))] None.

(** [id: int; s: Optional[str]; vec: List[float]; inner: InnerModel]. *)
Definition FooModel : BaseModel :=
  Build_BaseModel "FooModel"
    [("id", Build_FieldInfo int);
     ("s", Build_FieldInfo (Optional str));
     ("vec", Build_FieldInfo (List_ float));
     ("inner", Build_FieldInfo (model_class InnerModel))] None.

(** [list[()]]: the built-in list alias with no argument. *)
Definition list_no_args : py_type :=
  generic_alias types_GenericAlias (builtin c_list) [].

(** [class Broken(BaseModel): id: int; xs: list[()]]. *)
Definition Broken : BaseModel :=
  Build_BaseModel "Broken"
    [("id", Build_FieldInfo int); ("xs", Build_FieldInfo list_no_args)] None.

(** A model that also implements [FixedSizeListMixin]. *)
Definition ModelAndVector : BaseModel :=
  Build_BaseModel "ModelAndVector" [("a", Build_FieldInfo str)]
    (Some (mixin_impl (Some 4) (Some float32))).

(** [class OnlyDim(FixedSizeListMixin)] that defines [dim()] alone. *)
Definition OnlyDim : py_type :=
  user_class "OnlyDim" (Some (mixin_impl (Some 4) None)).

(** A float validator that takes floats only. *)
Definition strict_float (v : py_value) : result py_value :=
  match v with
  | py_float _ => Ok v
  | _ => Raise ValidationError
  end.

End Examples.

(* ===================================================================== *)
(** * Shapes of results, for the further properties *)
(* ===================================================================== *)

Module Shape.

(** The five Arrow types of the scalar mapping. *)
Definition is_scalar (dt : DataType) : bool :=
  match dt with
  | int64 | float64 | utf8 | bool_ | binary => true
  | _ => false
  end.

(** Every nullable field of a struct type, at any depth of nested structs,
    has a scalar type. *)
Fixpoint nullable_is_scalar (dt : DataType) : bool :=
  match dt with
  | struct fields => forallb nullable_field_is_scalar fields
  | _ => true
  end
with nullable_field_is_scalar (f : Field) : bool :=
  match f with
  | field _ t nullable =>
      (if nullable then is_scalar t else true) && nullable_is_scalar t
  end.

(** [class Unsupported(BaseModel): id: int; tags: Dict[str, int]; x: dict]. *)
Definition Unsupported : BaseModel :=
  Build_BaseModel "Unsupported"
    [("id", Build_FieldInfo (builtin c_int));
     ("tags", Build_FieldInfo
                (generic_alias typing_GenericAlias (builtin c_dict)
                   [builtin c_str; builtin c_int]));
     ("x", Build_FieldInfo (builtin c_dict))] None.

End Shape.

Module UrlShape.
Import UrlLib.
Local Open Scope char_scope.

(** What [urlsplit] does to its argument first. *)
Definition clean (url : string) : string := remove_unsafe (lstrip_c0 url).

(** The step of [urlsplit] that takes the scheme off. *)
Definition split_scheme (url : string) : string * string :=
  match find ":" url, url with
  | Some (S i'), String first _ =>
      let i := S i' in
      if is_ascii_alpha first && all_in_scheme_chars (take i url)
      then (lower (take i url), drop (S i) url)
      else (EmptyString, url)
  | _, _ => (EmptyString, url)
  end.

Fixpoint all_chars (p : ascii -> bool) (s : string) : bool :=
  match s with
  | EmptyString => true
  | String a rest => p a && all_chars p rest
  end.

(** A character of a parsed scheme: a scheme character that is no capital
    letter. *)
Definition lower_scheme_char (c : ascii) : bool :=
  in_scheme_chars c && negb (is_upper c).

(** Tab, carriage return and line feed. *)
Definition unsafe (c : ascii) : bool :=
  (code c =? 9)%N || (code c =? 13)%N || (code c =? 10)%N.

(** A character the parser neither removes nor splits a location at. *)
Definition plain_char (c : ascii) : bool :=
  negb (unsafe c || Ascii.eqb c "?" || Ascii.eqb c "#" || Ascii.eqb c ";"
        || Ascii.eqb c "[" || Ascii.eqb c "]").

(** The string does not begin with a space or a control character. *)
Definition no_leading_c0 (s : string) : bool :=
  match s with
  | String a _ => negb (code a <=? 32)%N
  | EmptyString => true
  end.

(** A scheme as [urlsplit] recognizes it: a letter first, then scheme
    characters. *)
Definition valid_scheme (s : string) : bool :=
  match s with
  | String first _ => is_ascii_alpha first && all_in_scheme_chars s
  | EmptyString => false
  end.

(** The step of [urlsplit] that takes the netloc off what follows the
    scheme, without its checks of square brackets. *)
Definition netloc_split (url : string) : string * string :=
  if String.eqb (take 2 url) "//" then _splitnetloc url else (EmptyString, url).

(** What is left as the path once [urlsplit] has cut the fragment and the
    query off, and [urlparse] the parameters. *)
Definition strip_fragment_query (url : string) : string :=
  let url := if contains "#" url then fst (split_once "#" url) else url in
  if contains "?" url then fst (split_once "?" url) else url.

Definition strip_params (scheme url : string) : string :=
  if in_list scheme uses_params && contains ";" url
  then fst (_splitparams url)
  else url.

End UrlShape.

(* ===================================================================== *)
(** * Basic facts *)
(* ===================================================================== *)

Lemma bind_Ok {A B : Type} (c : result A) (k : A -> result B) (b : B) :
  bind c k = Ok b <-> exists a, c = Ok a /\ k a = Ok b.
Proof.
  destruct c as [a | e]; simpl; split.
  - intros H. exists a. split; [reflexivity | exact H].
  - intros [a' [Ha Hk]]. injection Ha as ->. exact Hk.
  - discriminate.
  - intros [a' [Ha _]]. discriminate.
Qed.

Lemma bind_Raise {A B : Type} (c : result A) (k : A -> result B) (e : exn) :
  bind c k = Raise e <-> c = Raise e \/ exists a, c = Ok a /\ k a = Raise e.
Proof.
  destruct c as [a | e']; simpl; split.
  - intros H. right. exists a. split; [reflexivity | exact H].
  - intros [H | [a' [Ha Hk]]]; [discriminate | ]. injection Ha as ->. exact Hk.
  - intros H. left. injection H as ->. reflexivity.
  - intros [H | [a' [Ha _]]]; [injection H as ->; reflexivity | discriminate].
Qed.

Lemma pa_list_variable (value_type : DataType) :
  pa_list_ value_type (-1) = Ok (list_ value_type).
Proof. reflexivity. Qed.

Lemma pa_list_fixed (value_type : DataType) (n : Z) :
  Spec.valid_list_size n = true ->
  pa_list_ value_type n = Ok (fixed_size_list value_type n).
Proof.
  unfold Spec.valid_list_size, pa_list_. intros H.
  apply andb_true_iff in H as [Hpos Hmax].
  apply Z.leb_le in Hpos. apply Z.ltb_lt in Hmax.
  destruct (n <? - 2 ^ 31) eqn:E1; [apply Z.ltb_lt in E1; lia | ].
  destruct (2 ^ 31 <=? n) eqn:E2; [apply Z.leb_le in E2; lia | ].
  destruct (n =? -1) eqn:E3; [apply Z.eqb_eq in E3; lia | ].
  destruct (n <? 0) eqn:E4; [apply Z.ltb_lt in E4; lia | ].
  reflexivity.
Qed.

(** The mapping of scalars raises nothing but its own [TypeError]. *)
Lemma _py_type_to_arrow_type_Raise (t : py_type) (e : exn) :
  _py_type_to_arrow_type t = Raise e -> e = TypeError (unsupported_type t).
Proof.
  destruct t as [[] | | | | | | | ]; simpl; intros H;
    solve [discriminate | injection H as <-; reflexivity].
Qed.

Lemma _py_type_to_arrow_type_Ok (t : py_type) (dt : DataType) :
  _py_type_to_arrow_type t = Ok dt <->
  exists c, t = builtin c /\ In (c, dt) Spec.scalar_table.
Proof.
  split.
  - destruct t as [[] | | | | | | | ]; simpl; intros H;
      try discriminate; injection H as <-;
      eexists; (split; [reflexivity | simpl; tauto]).
  - intros [c [-> Hin]]. simpl in Hin.
    repeat (destruct Hin as [Hin | Hin];
            [injection Hin as <- <-; reflexivity | ]).
    contradiction.
Qed.

(** ** The loop over the declared fields *)

Section MapMFacts.
Context {A B : Type} (f : A -> result B).

Lemma mapM_Ok_Forall2 (l : list A) (out : list B) :
  mapM f l = Ok out <-> Forall2 (fun x y => f x = Ok y) l out.
Proof.
  revert out. induction l as [| x rest IH]; intros out; simpl.
  - split.
    + intros H. injection H as <-. constructor.
    + intros H. inversion H. reflexivity.
  - split.
    + intros H. apply bind_Ok in H as [y [Hy H]].
      apply bind_Ok in H as [ys [Hys H]]. injection H as <-.
      constructor; [exact Hy | apply IH; exact Hys].
    + intros H. inversion H as [| x' y l' ys Hy Hys]; subst.
      rewrite Hy. simpl. apply IH in Hys. rewrite Hys. reflexivity.
Qed.

(** The loop fails exactly when some item fails after a prefix of items
    that all succeed, and it fails with that item's exception. *)
Lemma mapM_Raise (l : list A) (e : exn) :
  mapM f l = Raise e <->
  exists done x rest ys,
    l = (done ++ x :: rest)%list /\ mapM f done = Ok ys /\ f x = Raise e.
Proof.
  induction l as [| x rest IH]; simpl.
  - split; [discriminate | ].
    intros [done [x [rest [ys [Hl _]]]]]. destruct done; discriminate.
  - split.
    + intros H. apply bind_Raise in H as [H | [y [Hy H]]].
      * exists [], x, rest, []. repeat split. exact H.
      * apply bind_Raise in H as [H | [ys [_ H]]]; [ | discriminate].
        apply IH in H as [done [x' [rest' [ys' [-> [Hd Hx]]]]]].
        exists (x :: done), x', rest', (y :: ys'). repeat split.
        -- simpl. rewrite Hy, Hd. reflexivity.
        -- exact Hx.
    + intros [done [x' [rest' [ys [Hl [Hd Hx]]]]]].
      destruct done as [| d done].
      * simpl in Hl. injection Hl as <- <-. rewrite Hx. reflexivity.
      * simpl in Hl. injection Hl as <- ->. simpl in Hd.
        apply bind_Ok in Hd as [y [Hy Hd]]. rewrite Hy. simpl.
        apply bind_Ok in Hd as [ys' [Hys _]].
        assert (Hr : mapM f (done ++ x' :: rest')%list = Raise e).
        { apply IH. exists done, x', rest', ys'. repeat split; assumption. }
        rewrite Hr. reflexivity.
Qed.

Lemma mapM_length (l : list A) (out : list B) :
  mapM f l = Ok out -> List.length out = List.length l.
Proof.
  intros H. apply mapM_Ok_Forall2 in H.
  induction H; simpl; congruence.
Qed.

Lemma mapM_Ok_Forall (l : list A) (out : list B) :
  mapM f l = Ok out -> Forall (fun x => exists y, f x = Ok y) l.
Proof.
  intros H. apply mapM_Ok_Forall2 in H.
  induction H as [| x y l' ys Hx _ IH]; constructor;
    [exists y; exact Hx | exact IH].
Qed.

Lemma mapM_all_Ok (l : list A) :
  (forall x, In x l -> exists y, f x = Ok y) -> exists out, mapM f l = Ok out.
Proof.
  induction l as [| x rest IH]; intros H; simpl.
  - exists []. reflexivity.
  - destruct (H x (or_introl eq_refl)) as [y Hy].
    destruct IH as [ys Hys]; [intros z Hz; apply H; right; exact Hz | ].
    exists (y :: ys). rewrite Hy. simpl. rewrite Hys. reflexivity.
Qed.
End MapMFacts.

(** The loop of [_pydantic_model_to_fields] calls [_pydantic_to_field] on
    every item of [model_fields], as the source has it. *)
Lemma _pydantic_model_to_fields_eq (model : BaseModel) :
  _pydantic_model_to_fields model =
  mapM (fun item => _pydantic_to_field (fst item) (snd item))
       (model_fields model).
Proof.
  destruct model as [name fields mx]. simpl.
  induction fields as [| [n fld] rest IH]; simpl; [reflexivity | ].
  unfold _pydantic_to_field at 1. simpl.
  destruct (_pydantic_to_arrow_type fld); simpl; [ | reflexivity].
  rewrite IH. reflexivity.
Qed.

(* ===================================================================== *)
(** * The scalar mapping *)
(* ===================================================================== *)

(** C3.  [_py_type_to_arrow_type] maps [int] to [int64], [float] to
    [float64], [str] to [utf8], [bool] to [bool_] and [bytes] to [binary];
    these five are the only annotations it maps, each to its own type (an
    [int] is never widened to a float type); on every other annotation it
    raises the [TypeError] that names that annotation. *)
Theorem _py_type_to_arrow_type_five_scalars :
  _py_type_to_arrow_type (builtin c_int) = Ok int64 /\
  _py_type_to_arrow_type (builtin c_float) = Ok float64 /\
  _py_type_to_arrow_type (builtin c_str) = Ok utf8 /\
  _py_type_to_arrow_type (builtin c_bool) = Ok bool_ /\
  _py_type_to_arrow_type (builtin c_bytes) = Ok binary /\
  (forall t dt,
      _py_type_to_arrow_type t = Ok dt <->
      exists c, t = builtin c /\ In (c, dt) Spec.scalar_table) /\
  (forall t,
      (forall c, In c (map fst Spec.scalar_table) -> t <> builtin c) ->
      _py_type_to_arrow_type t = Raise (TypeError (unsupported_type t))) /\
  (forall t e,
      _py_type_to_arrow_type t = Raise e -> e = TypeError (unsupported_type t)).
Proof.
  repeat split; try reflexivity.
  - apply _py_type_to_arrow_type_Ok.
  - apply _py_type_to_arrow_type_Ok.
  - intros t H.
    destruct (_py_type_to_arrow_type t) as [dt | e] eqn:E.
    + apply _py_type_to_arrow_type_Ok in E as [c [-> Hin]].
      exfalso. apply (H c); [ | reflexivity].
      apply (in_map fst) in Hin. exact Hin.
    + apply _py_type_to_arrow_type_Raise in E. rewrite E. reflexivity.
  - apply _py_type_to_arrow_type_Raise.
Qed.

(** An annotation outside the five: [List[int]] is no scalar. *)
Lemma _py_type_to_arrow_type_five_scalars_witness :
  _py_type_to_arrow_type (Examples.List_ Examples.int)
  = Raise (TypeError (unsupported_type (Examples.List_ Examples.int))).
Proof.
  apply (proj1 (proj2 (proj2 (proj2 (proj2 (proj2 (proj2
           _py_type_to_arrow_type_five_scalars))))))).
  intros c _ H. discriminate H.
Defined.

(* ===================================================================== *)
(** * The dispatch on the shape of an annotation *)
(* ===================================================================== *)

(** What the specification states does not hold of [Union[None, int]], an
    optional of one other type with the none type as its first arm, nor of
    [int | None]: the rules as stated unwrap both to [int64], and the code,
    which looks for a [typing] alias and tests its second arm only, hands
    the whole union to the scalar mapping.  Nor does it hold of a marker of
    dimension -1, which [pa.list_] takes for the list of variable size, nor
    of a subclass of the mixin without [value_arrow_type()], which is not
    handed to the scalar mapping. *)
Lemma _pydantic_to_arrow_type_not_as_stated :
  Spec.fieldType_as_stated (Examples.Union2 Examples.NoneType Examples.int)
  = Some (Ok int64) /\
  _pydantic_to_arrow_type
    (Build_FieldInfo (Examples.Union2 Examples.NoneType Examples.int))
  = Raise (TypeError
             (unsupported_type (Examples.Union2 Examples.NoneType Examples.int))) /\
  Spec.fieldType_as_stated (union_type [Examples.int; Examples.NoneType])
  = Some (Ok int64) /\
  _pydantic_to_arrow_type
    (Build_FieldInfo (union_type [Examples.int; Examples.NoneType]))
  = Raise (TypeError
             (unsupported_type (union_type [Examples.int; Examples.NoneType]))) /\
  Spec.fieldType_as_stated (vector (-1) None)
  = Some (Ok (fixed_size_list float32 (-1))) /\
  _pydantic_to_arrow_type (Build_FieldInfo (vector (-1) None))
  = Ok (list_ float32) /\
  Spec.fieldType_as_stated Examples.OnlyDim
  = Some (Raise (TypeError (unsupported_type Examples.OnlyDim))) /\
  _pydantic_to_arrow_type (Build_FieldInfo Examples.OnlyDim)
  = Raise NotImplementedError.
Proof. repeat split; reflexivity. Qed.

(** C1, amended.  [_pydantic_to_arrow_type] is the first-match dispatch
    over five rules in their order: (1) a parameterized list that has an
    element type maps to the list of the scalar type of that element; (2)
    an alias of [typing.Union] with two arms whose second arm is the none
    type maps to the scalar type of its first arm; (3) a nested model maps
    to the struct of its fields; (4) a subclass of the vector mixin maps to
    what [pa.list_] makes of its element type and its dimension, which is
    the fixed-size list of the two for a dimension from 0 up to, and not
    including, 2^31, and the list of variable size for the dimension -1,
    and it fails with [NotImplementedError] if the class leaves one of the
    two abstract; (5) anything else is handed to the scalar mapping.  The
    earliest rule whose shape the annotation has decides. *)
Theorem _pydantic_to_arrow_type_first_match (fld : FieldInfo) :
  Spec.has_element_type (annotation fld) = true ->
  Spec.fieldType (annotation fld) = Some (_pydantic_to_arrow_type fld) /\
  (forall elementType n,
      Spec.valid_list_size n = true ->
      pa_list_ elementType n = Ok (fixed_size_list elementType n)) /\
  (forall elementType, pa_list_ elementType (-1) = Ok (list_ elementType)).
Proof.
  intros Helem. split; [ | split; [exact pa_list_fixed | exact pa_list_variable]].
  destruct fld as [ann]. simpl annotation in *.
  destruct ann as [c | name mx | m | | name | kind origin args | args | r].
  - (* a built-in class *)
    reflexivity.
  - (* a class that is no model *)
    destruct mx as [[[n | ] [elementType | ]] | ]; reflexivity.
  - (* a model: the struct rule comes before the marker rule *)
    reflexivity.
  - reflexivity.
  - reflexivity.
  - (* an alias: the list rule, then the optional rule, then the fallback *)
    unfold Spec.fieldType.
    destruct args as [| a0 [| a1 [| a2 rest]]];
      cbn in *;
      destruct (eq_list origin); cbn in *; try discriminate;
      try (destruct (_py_type_to_arrow_type a0); reflexivity);
      destruct (eq_Union origin); cbn; try reflexivity;
      destruct (eq_NoneType a1); reflexivity.
  - reflexivity.
  - reflexivity.
Qed.

(** A field declared [vector(768)] is mapped by the marker rule, a field
    whose class implements [dim()] alone fails in it. *)
Lemma _pydantic_to_arrow_type_first_match_witness :
  Spec.fieldType (vector 768 None)
  = Some (_pydantic_to_arrow_type (Build_FieldInfo (vector 768 None))) /\
  _pydantic_to_arrow_type (Build_FieldInfo (vector 768 None))
  = Ok (fixed_size_list float32 768) /\
  _pydantic_to_arrow_type (Build_FieldInfo Examples.OnlyDim)
  = Raise NotImplementedError.
Proof.
  split; [ | split; reflexivity].
  exact (proj1 (_pydantic_to_arrow_type_first_match
                  (Build_FieldInfo (vector 768 None)) eq_refl)).
Defined.

(** A model that also carries the marker is a struct: rule 3 is earlier
    than rule 4. *)
Example model_before_vector :
  _pydantic_to_arrow_type (Build_FieldInfo (model_class Examples.ModelAndVector))
  = Ok (struct [field "a" utf8 false]).
Proof. reflexivity. Qed.

(** [Optional[List[int]]] has the shape of rule 2, and its inner type is no
    scalar. *)
Example optional_of_list_unsupported :
  _pydantic_to_arrow_type
    (Build_FieldInfo (Examples.Optional (Examples.List_ Examples.int)))
  = Raise (TypeError (unsupported_type (Examples.List_ Examples.int))).
Proof. reflexivity. Qed.

(* ===================================================================== *)
(** * Nullability *)
(* ===================================================================== *)

(** [Union[None, int]] is a two-armed union with the none type as an arm,
    and [is_nullable] answers [False] for it. *)
Lemma is_nullable_none_first :
  Spec.optional_of_one_other_type (Examples.Union2 Examples.NoneType Examples.int)
  = true /\
  is_nullable (Build_FieldInfo (Examples.Union2 Examples.NoneType Examples.int))
  = false.
Proof. split; reflexivity. Qed.

(** C2, amended.  [is_nullable] answers [True] exactly for a
    [typing] union alias of two arms whose second arm is the none type, the
    shape of [Optional[X]] and [Union[X, None]]. *)
Theorem is_nullable_iff (fld : FieldInfo) :
  is_nullable fld = true <->
  exists x,
    annotation fld
    = generic_alias typing_GenericAlias typing_Union [x; builtin c_NoneType].
Proof.
  unfold is_nullable. split.
  - destruct (annotation fld) as [ | | | | | kind origin args | | ];
      try discriminate.
    destruct kind; try discriminate.
    destruct origin; simpl; try discriminate.
    destruct args as [| a0 [| a1 [| a2 rest]]]; try discriminate.
    destruct a1 as [[] | | | | | | | ]; simpl; try discriminate.
    intros _. exists a0. reflexivity.
  - intros [x ->]. reflexivity.
Qed.

(** Unions the test leaves out: more than one arm besides the none type,
    and no none type at all. *)
Example is_nullable_other_unions :
  is_nullable (Build_FieldInfo
     (generic_alias typing_GenericAlias typing_Union
        [Examples.int; Examples.str; Examples.NoneType])) = false /\
  is_nullable (Build_FieldInfo (Examples.Union2 Examples.int Examples.str))
  = false /\
  is_nullable (Build_FieldInfo (Examples.Optional Examples.str)) = true.
Proof. repeat split. Qed.

(* ===================================================================== *)
(** * From a model to its fields and its schema *)
(* ===================================================================== *)

(** C4.  [_pydantic_model_to_fields] makes, for every declared field in
    declaration order, the field of its name, of the type
    [_pydantic_to_arrow_type] gives it and of the nullability [is_nullable]
    gives it; [pydantic_to_schema] is the schema of exactly these fields;
    and the model with fields [id], [s], [vec] and [inner] translates to the
    four fields the specification lists. *)
Theorem _pydantic_model_to_fields_in_order (model : BaseModel) :
  (forall fields,
      _pydantic_model_to_fields model = Ok fields <->
      Forall2 (fun item fd =>
                 exists dt,
                   _pydantic_to_arrow_type (snd item) = Ok dt /\
                   fd = field (fst item) dt (is_nullable (snd item)))
              (model_fields model) fields) /\
  ((forall item, In item (model_fields model) ->
               exists dt, _pydantic_to_arrow_type (snd item) = Ok dt) ->
   exists fields, _pydantic_model_to_fields model = Ok fields) /\
  (forall fields,
      pydantic_to_schema model = Ok (schema fields) <->
      _pydantic_model_to_fields model = Ok fields) /\
  (forall e,
      pydantic_to_schema model = Raise e <->
      _pydantic_model_to_fields model = Raise e) /\
  pydantic_to_schema Examples.FooModel
  = Ok (schema
          [field "id" int64 false;
           field "s" utf8 true;
           field "vec" (list_ float64) false;
           field "inner"
             (struct [field "a" utf8 false; field "b" float64 true]) false]).
Proof.
  repeat split.
  - (* the fields, in order *)
    rewrite _pydantic_model_to_fields_eq. intros H.
    apply mapM_Ok_Forall2 in H.
    induction H as [| item fd l out Hf _ IH]; constructor; [ | exact IH].
    unfold _pydantic_to_field in Hf. apply bind_Ok in Hf as [dt [Hdt Hfd]].
    exists dt. split; [exact Hdt | ]. injection Hfd as <-. reflexivity.
  - rewrite _pydantic_model_to_fields_eq. intros H.
    apply mapM_Ok_Forall2.
    induction H as [| item fd l out [dt [Hdt ->]] _ IH]; constructor;
      [ | exact IH].
    unfold _pydantic_to_field. rewrite Hdt. reflexivity.
  - (* every field translates: so does the model *)
    intros H. rewrite _pydantic_model_to_fields_eq. apply mapM_all_Ok.
    intros item Hin. destruct (H item Hin) as [dt Hdt].
    unfold _pydantic_to_field. rewrite Hdt. simpl. eexists. reflexivity.
  - unfold pydantic_to_schema. intros H.
    apply bind_Ok in H as [fs [Hfs H]]. injection H as <-. exact Hfs.
  - unfold pydantic_to_schema. intros ->. reflexivity.
  - unfold pydantic_to_schema. intros H.
    apply bind_Raise in H as [H | [fs [_ H]]]; [exact H | discriminate].
  - unfold pydantic_to_schema. intros ->. reflexivity.
Qed.

(** The same, read on a model whose two fields both translate. *)
Lemma _pydantic_model_to_fields_in_order_witness :
  exists fields, _pydantic_model_to_fields Examples.InnerModel = Ok fields.
Proof.
  apply (proj1 (proj2 (_pydantic_model_to_fields_in_order Examples.InnerModel))).
  intros item Hin. simpl in Hin.
  destruct Hin as [<- | [<- | []]]; eexists; reflexivity.
Defined.

(** A failing field ends the loop: the exception is that of the first field
    that fails, and no field list is returned. *)
Lemma pydantic_to_schema_aborts (model : BaseModel) (e : exn) :
  pydantic_to_schema model = Raise e <->
  exists done item rest fields,
    model_fields model = (done ++ item :: rest)%list /\
    mapM (fun i => _pydantic_to_field (fst i) (snd i)) done = Ok fields /\
    _pydantic_to_field (fst item) (snd item) = Raise e.
Proof.
  rewrite <- mapM_Raise, <- _pydantic_model_to_fields_eq.
  unfold pydantic_to_schema. split.
  - intros H. apply bind_Raise in H as [H | [fs [_ H]]];
      [exact H | discriminate].
  - intros ->. reflexivity.
Qed.

(** On a model that is well formed throughout, every exception of the
    translation is the [TypeError] of an unsupported type. *)
Lemma _pydantic_to_arrow_type_well_formed (fld : FieldInfo) (e : exn) :
  Spec.well_formed_field fld = true ->
  _pydantic_to_arrow_type fld = Raise e ->
  exists t, e = TypeError (unsupported_type t).
Proof.
  revert fld e. fix IH 1. intros [ann] e Hwf.
  assert (Hscalar : forall t, _py_type_to_arrow_type t = Raise e ->
                              exists t', e = TypeError (unsupported_type t')).
  { intros t H. exists t. apply _py_type_to_arrow_type_Raise. exact H. }
  simpl in Hwf. apply andb_true_iff in Hwf as [Hwf Hnested].
  apply andb_true_iff in Hwf as [Helem Hdim].
  destruct ann as [c | name mx | m | | name | kind origin args | args | r];
    try (apply Hscalar).
  - (* a class: pyarrow takes the dimension *)
    destruct mx as [[[n | ] [elementType | ]] | ]; try discriminate;
      [ | apply Hscalar].
    simpl in Hdim. simpl. rewrite (pa_list_fixed _ _ Hdim). discriminate.
  - (* a model: the failing field is one of its own *)
    destruct m as [name fields mx]. simpl in Hnested. simpl. intros H.
    apply bind_Raise in H as [H | [fs [_ H]]]; [ | discriminate].
    clear Helem Hdim.
    induction fields as [| [n f] rest IHf]; simpl in H; [discriminate | ].
    simpl in Hnested. apply andb_true_iff in Hnested as [Hf Hrest].
    apply bind_Raise in H as [H | [y [_ H]]].
    + apply bind_Raise in H as [H | [dt [_ H]]]; [ | discriminate].
      exact (IH f e Hf H).
    + apply bind_Raise in H as [H | [ys [_ H]]]; [ | discriminate].
      exact (IHf Hrest H).
  - (* an alias *)
    destruct args as [| a0 [| a1 [| a2 rest]]]; simpl in *;
      destruct (eq_list origin); simpl in *; try discriminate;
      try (destruct (_py_type_to_arrow_type a0) eqn:E0; simpl;
           [discriminate | intros H; injection H as <-;
                           exact (Hscalar a0 E0)]);
      destruct (eq_Union origin);
      try (intros H; injection H as <-; eexists; reflexivity).
    destruct (eq_NoneType a1);
      [apply Hscalar | intros H; injection H as <-; eexists; reflexivity].
Qed.

Lemma pydantic_to_schema_well_formed (model : BaseModel) (e : exn) :
  Spec.well_formed_model model = true ->
  pydantic_to_schema model = Raise e ->
  exists t, e = TypeError (unsupported_type t).
Proof.
  intros Hwf H.
  apply (_pydantic_to_arrow_type_well_formed
           (Build_FieldInfo (model_class model)) e).
  - simpl. exact Hwf.
  - unfold pydantic_to_schema in H.
    apply bind_Raise in H as [H | [fs [_ H]]]; [ | discriminate].
    change (_pydantic_to_arrow_type (Build_FieldInfo (model_class model)))
      with (fields <- _pydantic_model_to_fields model ;; Ok (struct fields)).
    rewrite H. reflexivity.
Qed.

(** C5.  A field declared [list[()]] makes the translation raise
    [IndexError], an exception other than the [TypeError] for unsupported
    types: the list branch takes [args[0]] without looking at the length of
    [args]. *)
Theorem pydantic_to_schema_IndexError :
  _pydantic_to_arrow_type (Build_FieldInfo Examples.list_no_args)
  = Raise IndexError /\
  pydantic_to_schema Examples.Broken = Raise IndexError.
Proof. split; reflexivity. Qed.

(* ===================================================================== *)
(** * What a run changes, and what its result depends on *)
(* ===================================================================== *)

Module StoreFacts.
Import Store.

Lemma lookup_class_app (s new : store) (r : ref) :
  Forall is_list new -> lookup_class (s ++ new)%list r = lookup_class s r.
Proof.
  intros Hnew. unfold lookup_class.
  destruct (Nat.lt_ge_cases r (List.length s)) as [Hlt | Hge].
  - rewrite nth_error_app1 by exact Hlt. reflexivity.
  - rewrite nth_error_app2 by exact Hge.
    apply nth_error_None in Hge. rewrite Hge.
    destruct (nth_error new (r - List.length s)) as [o | ] eqn:E;
      [ | reflexivity].
    apply nth_error_In in E.
    rewrite Forall_forall in Hnew. specialize (Hnew o E).
    destruct o; [contradiction | reflexivity].
Qed.

Lemma nth_error_middle (s : store) (o : object) (rest : store) :
  nth_error (s ++ o :: rest)%list (List.length s) = Some o.
Proof.
  rewrite nth_error_app2 by reflexivity. rewrite Nat.sub_diag. reflexivity.
Qed.

Lemma update_middle (s : store) (x o : object) (rest : store) :
  update (s ++ x :: rest)%list (List.length s) o = (s ++ o :: rest)%list.
Proof. induction s as [| y s IH]; simpl; [ | rewrite IH]; reflexivity. Qed.

(** ** A run reads the classes only *)

Lemma type_of_ext (c c' : ref -> option class_object)
    (nested nested' : ref -> outcome (list Field)) (t : stored_type) :
  (forall r, c r = c' r) -> (forall r, nested r = nested' r) ->
  type_of c nested t = type_of c' nested' t.
Proof.
  intros Hc Hn. destruct t; try reflexivity.
  simpl. rewrite Hc. destruct (c' address) as [cl | ]; [ | reflexivity].
  rewrite Hn. reflexivity.
Qed.

Lemma fields_of_items_ext (c c' : ref -> option class_object)
    (nested nested' : ref -> outcome (list Field))
    (items : list (string * stored_type)) :
  (forall r, c r = c' r) -> (forall r, nested r = nested' r) ->
  fields_of_items c nested items = fields_of_items c' nested' items.
Proof.
  intros Hc Hn. induction items as [| [name t] rest IH]; simpl;
    [reflexivity | ].
  rewrite (type_of_ext c c' nested nested' t Hc Hn), IH. reflexivity.
Qed.

Lemma fields_of_ext (c c' : ref -> option class_object) (depth : nat)
    (model : ref) :
  (forall r, c r = c' r) -> fields_of c depth model = fields_of c' depth model.
Proof.
  intros Hc. revert model. induction depth as [| d IH]; intros model; simpl;
    [reflexivity | ].
  rewrite Hc. destruct (c' model) as [cl | ]; [ | reflexivity].
  destruct (class_model_fields cl) as [items | ]; [ | reflexivity].
  apply fields_of_items_ext; assumption.
Qed.

(** ** A run adds list objects and changes no object that was there *)

Lemma scalar_run (t : stored_type) (s : store) :
  _py_type_to_arrow_type t s = (scalar_of t, s).
Proof. destruct t as [[] | | | | | | ]; reflexivity. Qed.

Lemma lift_run {A : Type} (c : result A) (s : store) :
  lift c s = (lifted c, s).
Proof. destruct c; reflexivity. Qed.

Lemma type_run (call : ref -> M ref)
    (value : (ref -> option class_object) -> ref -> outcome (list Field))
    (t : stored_type) (s : store) :
  runs_as call value ->
  exists new,
    Forall is_list new /\
    _pydantic_to_arrow_type call t s
    = (type_of (lookup_class s) (value (lookup_class s)) t, (s ++ new)%list).
Proof.
  intros Hcall.
  assert (Hscalar : forall t',
             exists new,
               Forall is_list new /\
               _py_type_to_arrow_type t' s = (scalar_of t', (s ++ new)%list)).
  { intros t'. exists []. rewrite scalar_run, app_nil_r.
    split; [constructor | reflexivity]. }
  destruct t as [c | address | | name | kind origin args | args | r];
    try apply Hscalar.
  - (* a class object *)
    unfold _pydantic_to_arrow_type, type_of, bindM, lookup, lookup_class.
    destruct (nth_error s address) as [[c | items] | ]; try apply Hscalar.
    destruct (class_model_fields c) as [fs | ].
    + destruct (Hcall address s) as [new [r [Hnew [Hrun Hr]]]].
      exists new. split; [exact Hnew | ]. rewrite Hrun.
      destruct r as [fields | e].
      * destruct Hr as [items [Hitems Hvalue]].
        unfold lookup_class in Hvalue. rewrite Hvalue.
        unfold list_items, bindM, lookup. rewrite Hitems. reflexivity.
      * unfold lookup_class in Hr. rewrite Hr. reflexivity.
    + destruct (class_mixin c) as [impl | ]; [ | apply Hscalar].
      exists []. rewrite app_nil_r. split; [constructor | ].
      destruct (impl_value_arrow_type impl) as [vt | ]; [ | reflexivity].
      destruct (impl_dim impl) as [n | ]; [ | reflexivity].
      cbn. rewrite lift_run. reflexivity.
  - (* an alias *)
    exists []. rewrite app_nil_r. split; [constructor | ].
    unfold _pydantic_to_arrow_type, type_of.
    destruct (eq_list origin).
    + destruct args as [| child rest]; [reflexivity | ].
      unfold bindM. cbn [getitem nth_error lift ret].
      rewrite scalar_run. destruct (scalar_of child); reflexivity.
    + destruct (eq_Union origin); [ | rewrite scalar_run; reflexivity].
      destruct args as [| a0 [| a1 [| a2 rest]]];
        try (rewrite scalar_run; reflexivity).
      destruct (eq_NoneType a1); rewrite scalar_run; reflexivity.
Qed.

Lemma loop_run (call : ref -> M ref)
    (value : (ref -> option class_object) -> ref -> outcome (list Field))
    (s : store) (items : list (string * stored_type)) :
  runs_as call value ->
  (forall c c' model, (forall r, c r = c' r) -> value c model = value c' model) ->
  forall acc rest,
    Forall is_list rest ->
    exists r acc' rest',
      Forall is_list rest' /\
      for_each (fun item : string * stored_type =>
                  f <~ _pydantic_to_field call (fst item) (snd item) ;;
                  list_append (List.length s) f)
               items (s ++ List acc :: rest)%list
      = (r, (s ++ List acc' :: rest')%list) /\
      match r with
      | Return _ =>
          exists out,
            fields_of_items (lookup_class s) (value (lookup_class s)) items
            = Return out /\
            acc' = (acc ++ out)%list
      | Raised e =>
          fields_of_items (lookup_class s) (value (lookup_class s)) items
          = Raised e
      end.
Proof.
  intros Hcall Hext.
  induction items as [| [name t] items IH]; intros acc rest Hrest.
  - exists (Return tt), acc, rest. simpl. repeat split; [exact Hrest | ].
    exists []. rewrite app_nil_r. split; reflexivity.
  - cbn [for_each fields_of_items fst snd].
    set (here := (s ++ List acc :: rest)%list).
    assert (Hsame : forall r, lookup_class here r = lookup_class s r).
    { intros r. apply lookup_class_app. constructor; [exact I | exact Hrest]. }
    destruct (type_run call value t here Hcall) as [new [Hnew Hrun]].
    rewrite (type_of_ext _ (lookup_class s) _ (value (lookup_class s)) t Hsame)
      in Hrun
      by (intros r; apply Hext; exact Hsame).
    unfold bindM at 1. unfold _pydantic_to_field. unfold bindM at 1.
    unfold bindM at 1. rewrite Hrun.
    assert (Hrest' : Forall is_list (rest ++ new)%list)
      by (apply Forall_app; split; assumption).
    subst here. rewrite <- app_assoc. cbn [app].
    destruct (type_of (lookup_class s) (value (lookup_class s)) t) as [dt | e].
    + unfold ret. unfold list_append.
      rewrite nth_error_middle, update_middle.
      destruct (IH (acc ++ [field name dt (is_nullable t)])%list
                   (rest ++ new)%list Hrest')
        as [r [acc' [rest' [Hr' [Hloop Hr]]]]].
      exists r, acc', rest'. split; [exact Hr' | ]. split; [exact Hloop | ].
      destruct r as [[] | e].
      * destruct Hr as [out [Hout ->]]. rewrite Hout.
        eexists. split; [reflexivity | ].
        rewrite <- app_assoc. reflexivity.
      * rewrite Hr. reflexivity.
    + exists (Raised e), acc, (rest ++ new)%list.
      repeat split. exact Hrest'.
Qed.

Lemma _pydantic_model_to_fields_runs (depth : nat) :
  runs_as (_pydantic_model_to_fields depth)
          (fun classes => fields_of classes depth).
Proof.
  induction depth as [| d IH]; intros model s.
  - exists [], (Raised RecursionError). rewrite app_nil_r.
    repeat split. constructor.
  - cbn [_pydantic_model_to_fields fields_of].
    unfold _pydantic_model_to_fields_body, bindM at 1, alloc.
    unfold bindM at 1, get_model_fields, bindM at 1, lookup.
    assert (Hsame : lookup_class (s ++ [List []])%list model
                    = lookup_class s model)
      by (apply lookup_class_app; repeat constructor).
    unfold lookup_class in Hsame at 1.
    unfold ret, raise.
    destruct (nth_error (s ++ [List []])%list model) as [[c | l] | ];
      rewrite <- Hsame.
    2, 3: exists [List []], (Raised AttributeError);
          repeat split; repeat constructor.
    destruct (class_model_fields c) as [items | ].
    2: exists [List []], (Raised AttributeError);
       repeat split; repeat constructor.
    destruct (loop_run (_pydantic_model_to_fields d)
                (fun classes => fields_of classes d) s items IH
                (fun c1 c2 m H => fields_of_ext c1 c2 d m H)
                [] [] (Forall_nil _))
      as [r [acc' [rest' [Hrest' [Hloop Hr]]]]].
    unfold bindM at 1. rewrite Hloop.
    destruct r as [[] | e].
    + destruct Hr as [out [Hout ->]].
      exists (List out :: rest'), (Return (List.length s)).
      split; [constructor; [exact I | exact Hrest'] | ].
      split; [reflexivity | ].
      exists out. split; [apply nth_error_middle | exact Hout].
    + exists (List acc' :: rest'), (Raised e).
      split; [constructor; [exact I | exact Hrest'] | ].
      split; [reflexivity | exact Hr].
Qed.

Lemma pydantic_to_schema_runs (depth : nat) (model : ref) (s : store) :
  exists new,
    Forall is_list new /\
    pydantic_to_schema depth model s
    = (match fields_of (lookup_class s) depth model with
       | Return items => Return (schema items)
       | Raised e => Raised e
       end, (s ++ new)%list).
Proof.
  destruct (_pydantic_model_to_fields_runs depth model s)
    as [new [r [Hnew [Hrun Hr]]]].
  exists new. split; [exact Hnew | ].
  unfold pydantic_to_schema, bindM at 1. rewrite Hrun.
  destruct r as [fields | e].
  - destruct Hr as [items [Hitems ->]].
    unfold list_items, bindM, lookup. rewrite Hitems. reflexivity.
  - rewrite Hr. reflexivity.
Qed.

Lemma same_classes_app (s new : store) :
  Forall is_list new -> same_classes s (s ++ new)%list.
Proof. intros H r. symmetry. apply lookup_class_app. exact H. Qed.

(** ** The bound on the nesting *)

Lemma type_of_deeper (c : ref -> option class_object)
    (nested nested' : ref -> outcome (list Field)) (t : stored_type) :
  (forall model, nested model <> Raised RecursionError ->
                 nested' model = nested model) ->
  type_of c nested t <> Raised RecursionError ->
  type_of c nested' t = type_of c nested t.
Proof.
  intros Hn. destruct t; try reflexivity. simpl.
  destruct (c address) as [cl | ]; [ | reflexivity].
  destruct (class_model_fields cl); [ | reflexivity].
  intros H. rewrite Hn; [reflexivity | ].
  intros E. rewrite E in H. apply H. reflexivity.
Qed.

Lemma fields_of_items_deeper (c : ref -> option class_object)
    (nested nested' : ref -> outcome (list Field))
    (items : list (string * stored_type)) :
  (forall model, nested model <> Raised RecursionError ->
                 nested' model = nested model) ->
  fields_of_items c nested items <> Raised RecursionError ->
  fields_of_items c nested' items = fields_of_items c nested items.
Proof.
  intros Hn. induction items as [| [name t] rest IH]; simpl; [reflexivity | ].
  intros H.
  assert (Ht : type_of c nested t <> Raised RecursionError).
  { intros E. rewrite E in H. apply H. reflexivity. }
  rewrite (type_of_deeper c nested nested' t Hn Ht).
  destruct (type_of c nested t) as [dt | e]; [ | reflexivity].
  rewrite IH; [reflexivity | ].
  intros E. rewrite E in H. apply H. reflexivity.
Qed.

Lemma fields_of_deeper (c : ref -> option class_object) (depth depth' : nat)
    (model : ref) :
  (depth <= depth')%nat ->
  fields_of c depth model <> Raised RecursionError ->
  fields_of c depth' model = fields_of c depth model.
Proof.
  revert depth' model.
  induction depth as [| d IH]; intros depth' model Hle H;
    [exfalso; apply H; reflexivity | ].
  destruct depth' as [| d']; [lia | ].
  simpl in *. destruct (c model) as [cl | ]; [ | reflexivity].
  destruct (class_model_fields cl) as [items | ]; [ | reflexivity].
  apply fields_of_items_deeper; [ | exact H].
  intros m Hm. apply IH; [lia | exact Hm].
Qed.

(** C9.  A run of [pydantic_to_schema] changes no object of the store it
    finds, so the model and the classes it refers to are as they were; all
    it leaves behind are the list objects it made.  Its result, the schema
    or the exception, is the same in every store that holds the same
    classes at the same addresses, whatever else that store holds: in
    particular a second run, made in the store the first run left, returns
    what the first returned.  The bound on the nesting of calls matters to
    the result only when it is exceeded. *)
Theorem pydantic_to_schema_idempotent (depth : nat) (model : ref) (s : store) :
  (exists new,
      Forall is_list new /\
      snd (pydantic_to_schema depth model s) = (s ++ new)%list) /\
  (forall s',
      same_classes s s' ->
      fst (pydantic_to_schema depth model s')
      = fst (pydantic_to_schema depth model s)) /\
  fst (pydantic_to_schema depth model (snd (pydantic_to_schema depth model s)))
  = fst (pydantic_to_schema depth model s) /\
  (forall depth',
      (depth <= depth')%nat ->
      fst (pydantic_to_schema depth model s) <> Raised RecursionError ->
      fst (pydantic_to_schema depth' model s)
      = fst (pydantic_to_schema depth model s)).
Proof.
  destruct (pydantic_to_schema_runs depth model s) as [new [Hnew Hrun]].
  assert (Hsame : forall s',
             same_classes s s' ->
             fst (pydantic_to_schema depth model s')
             = fst (pydantic_to_schema depth model s)).
  { intros s' H.
    destruct (pydantic_to_schema_runs depth model s') as [new' [_ Hrun']].
    rewrite Hrun, Hrun'. cbn [fst].
    rewrite (fields_of_ext (lookup_class s') (lookup_class s) depth model)
      by (intros r; symmetry; apply H).
    reflexivity. }
  split; [exists new; rewrite Hrun; split; [exact Hnew | reflexivity] | ].
  split; [exact Hsame | ].
  split.
  - apply Hsame. rewrite Hrun. cbn [snd]. apply same_classes_app. exact Hnew.
  - intros depth' Hle.
    destruct (pydantic_to_schema_runs depth' model s) as [new' [_ Hrun']].
    rewrite Hrun, Hrun'. cbn [fst]. intros H.
    rewrite (fields_of_deeper (lookup_class s) depth depth' model Hle);
      [reflexivity | ].
    intros E. rewrite E in H. apply H. reflexivity.
Qed.

(** The four fields of [FooModel], from a store that holds a list the run
    has nothing to do with: the run leaves it alone, makes the list of the
    four fields at the next free address and that of the two fields of
    [InnerModel] after it, and a second run returns the same schema. *)
Example pydantic_to_schema_in_example_store :
  let fields :=
    [field "id" int64 false;
     field "s" utf8 true;
     field "vec" (list_ float64) false;
     field "inner"
       (struct [field "a" utf8 false; field "b" float64 true]) false] in
  let inner := [field "a" utf8 false; field "b" float64 true] in
  pydantic_to_schema 2%nat 1%nat example_store
  = (Return (schema fields),
     (example_store ++ [List fields; List inner])%list) /\
  fst (pydantic_to_schema 2%nat 1%nat (example_store ++ [List fields; List inner])%list)
  = Return (schema fields).
Proof. split; reflexivity. Qed.

(** A model that refers to itself exceeds every bound. *)
Example self_reference_raises (depth : nat) :
  fst (pydantic_to_schema depth 0%nat [Class Node]) = Raised RecursionError.
Proof.
  destruct (pydantic_to_schema_runs depth 0%nat [Class Node]) as [new [_ ->]].
  cbn [fst].
  assert (H : fields_of (lookup_class [Class Node]) depth 0%nat
              = Raised RecursionError).
  { induction depth as [| d IH]; [reflexivity | ].
    cbn. rewrite IH. reflexivity. }
  rewrite H. reflexivity.
Qed.
End StoreFacts.

(* ===================================================================== *)
(** * The two embeddings of the adapter agree *)
(* ===================================================================== *)

Module LoadFacts.
Import Load.

(** Induction on an annotation through the fields of the models and the
    arguments of the aliases in it. *)
Lemma py_type_nested_ind (P : py_type -> Prop) :
  (forall c, P (builtin c)) ->
  (forall name mixin, P (user_class name mixin)) ->
  (forall name fields mixin,
      Forall (fun item : string * FieldInfo => P (annotation (snd item))) fields ->
      P (model_class (Build_BaseModel name fields mixin))) ->
  P typing_Union ->
  (forall name, P (typing_special name)) ->
  (forall kind origin args,
      P origin -> Forall P args -> P (generic_alias kind origin args)) ->
  (forall args, Forall P args -> P (union_type args)) ->
  (forall repr, P (other_object repr)) ->
  forall t, P t.
Proof.
  intros Hb Hu Hm HU Hs Ha Hun Ho. fix IH 1. intros t.
  destruct t as [c | name mx | m | | name | kind origin args | args | r].
  - apply Hb.
  - apply Hu.
  - destruct m as [name fields mx]. apply Hm.
    induction fields as [| [n [a]] rest IHf]; constructor; [ | exact IHf].
    simpl. apply IH.
  - apply HU.
  - apply Hs.
  - apply Ha; [apply IH | ].
    induction args as [| a rest IHa]; constructor; [apply IH | exact IHa].
  - apply Hun.
    induction args as [| a rest IHa]; constructor; [apply IH | exact IHa].
  - apply Ho.
Qed.

(** ** Loading adds objects to the store *)

Lemma load_list_extends {A B : Type}
    (load : A -> Store.store -> B * Store.store) (l : list A) :
  Forall (fun x => forall s, exists new, snd (load x s) = (s ++ new)%list) l ->
  forall s, exists new, snd (load_list load l s) = (s ++ new)%list.
Proof.
  induction 1 as [| x rest Hx _ IH]; intros s; simpl.
  - exists []. rewrite app_nil_r. reflexivity.
  - destruct (Hx s) as [n1 H1]. destruct (load x s) as [y s1]. simpl in H1.
    subst s1. destruct (IH (s ++ n1)%list) as [n2 H2].
    destruct (load_list load rest (s ++ n1)%list) as [ys s2]. simpl in *.
    subst s2. exists (n1 ++ n2)%list. rewrite app_assoc. reflexivity.
Qed.

Lemma load_type_extends (t : py_type) :
  forall s, exists new, snd (load_type t s) = (s ++ new)%list.
Proof.
  induction t using py_type_nested_ind; intros s;
    try (exists []; rewrite app_nil_r; reflexivity).
  - eexists. reflexivity.
  - cbn [load_type load_model].
    destruct (load_list_extends
                (fun (item : string * FieldInfo) s0 =>
                   let (annotation, s1) := load_field (snd item) s0 in
                   ((fst item, annotation), s1)) fields) with (s := s)
      as [new Hnew].
    { eapply Forall_impl; [ | exact H]. intros [n [a]] Ha s0. simpl in *.
      destruct (Ha s0) as [new Hnew]. exists new.
      destruct (load_type a s0). exact Hnew. }
    destruct (load_list _ fields s) as [fields' s1]. simpl in Hnew. subst s1.
    eexists. cbn [snd]. rewrite <- app_assoc. reflexivity.
  - cbn [load_type].
    destruct (IHt s) as [n1 H1]. destruct (load_type t s) as [o' s1].
    simpl in H1. subst s1.
    destruct (load_list_extends load_type args H (s ++ n1)%list) as [n2 H2].
    destruct (load_list load_type args (s ++ n1)%list) as [args' s2].
    simpl in *. subst s2. exists (n1 ++ n2)%list. rewrite app_assoc.
    reflexivity.
  - cbn [load_type].
    destruct (load_list_extends load_type args H s) as [n1 H1].
    destruct (load_list load_type args s) as [args' s1]. simpl in *.
    exists n1. exact H1.
Qed.

Lemma lookup_class_new (s : Store.store) (cl : Store.class_object)
    (more : Store.store) :
  Store.lookup_class ((s ++ [Store.Class cl]) ++ more)%list (List.length s)
  = Some cl.
Proof.
  unfold Store.lookup_class. rewrite <- app_assoc.
  rewrite nth_error_app2 by reflexivity. rewrite Nat.sub_diag. reflexivity.
Qed.

(** ** A loaded annotation has the shape of the annotation *)

Lemma agrees_lifted {A : Type} (c : result A) : agrees c (Store.lifted c).
Proof. destruct c as [a | [[] | | | | | ]]; reflexivity. Qed.

Lemma load_eq_list (t : py_type) (s : Store.store) :
  Store.eq_list (fst (load_type t s)) = eq_list t.
Proof.
  destruct t as [[] | | m | | | kind origin args | args | ]; simpl;
    try reflexivity.
  - destruct (load_model m s). reflexivity.
  - destruct (load_type origin s), (load_list load_type args _). reflexivity.
  - destruct (load_list load_type args _). reflexivity.
Qed.

Lemma load_eq_Union (t : py_type) (s : Store.store) :
  Store.eq_Union (fst (load_type t s)) = eq_Union t.
Proof.
  destruct t as [[] | | m | | | kind origin args | args | ]; simpl;
    try reflexivity.
  - destruct (load_model m s). reflexivity.
  - destruct (load_type origin s), (load_list load_type args _). reflexivity.
  - destruct (load_list load_type args _). reflexivity.
Qed.

Lemma load_eq_NoneType (t : py_type) (s : Store.store) :
  Store.eq_NoneType (fst (load_type t s)) = eq_NoneType t.
Proof.
  destruct t as [[] | | m | | | kind origin args | args | ]; simpl;
    try reflexivity.
  - destruct (load_model m s). reflexivity.
  - destruct (load_type origin s), (load_list load_type args _). reflexivity.
  - destruct (load_list load_type args _). reflexivity.
Qed.

Lemma load_scalar (t : py_type) (s : Store.store) :
  agrees (_py_type_to_arrow_type t) (Store.scalar_of (fst (load_type t s))).
Proof.
  destruct t as [[] | | m | | | kind origin args | args | ]; simpl;
    try reflexivity.
  - destruct (load_model m s). reflexivity.
  - destruct (load_type origin s), (load_list load_type args _). reflexivity.
  - destruct (load_list load_type args _). reflexivity.
Qed.

Lemma load_is_nullable (t : py_type) (s : Store.store) :
  Store.is_nullable (fst (load_type t s)) = is_nullable (Build_FieldInfo t).
Proof.
  destruct t as [c | | m | | | kind origin args | args | ];
    try reflexivity.
  - simpl. destruct (load_model m s). reflexivity.
  - unfold is_nullable. cbn [annotation load_type].
    pose proof (load_eq_Union origin s) as HU.
    destruct (load_type origin s) as [origin' s1]. cbn [fst] in HU.
    destruct args as [| a0 [| a1 [| a2 rest]]]; cbn [load_list].
    + cbn. destruct kind; [rewrite HU | ]; reflexivity.
    + destruct (load_type a0 s1). cbn.
      destruct kind; [rewrite HU | ]; reflexivity.
    + destruct (load_type a0 s1) as [a0' s2].
      pose proof (load_eq_NoneType a1 s2) as HN.
      destruct (load_type a1 s2) as [a1' s3]. cbn [fst] in HN. cbn.
      destruct kind; [rewrite HU, HN | ]; reflexivity.
    + destruct (load_type a0 s1) as [a0' s2].
      destruct (load_type a1 s2) as [a1' s3].
      destruct (load_type a2 s3) as [a2' s4].
      destruct (load_list load_type rest s4). cbn.
      destruct kind; [rewrite HU | ]; reflexivity.
  - simpl. destruct (load_list load_type args s). reflexivity.
Qed.

Lemma agrees_Ok {A : Type} (a : A) (run : Store.outcome A) :
  agrees (Ok a) run -> run = Store.Return a.
Proof. destruct run; simpl; [intros -> | intros []]; reflexivity. Qed.

Lemma agrees_Raise {A : Type} (e : exn) (run : Store.outcome A) :
  agrees (Raise e) run ->
  exists e', run = Store.Raised e' /\
             forall B : Type, agrees (@Raise B e) (@Store.Raised B e').
Proof.
  destruct run as [a | e'].
  - destruct e as [[] | | | | | ]; intros [].
  - intros H. exists e'. split; [reflexivity | ]. intros B.
    destruct e as [[] | | | | | ], e' as [t' | e'' | | ]; exact H.
Qed.

(** ** The fields of a loaded model *)

Lemma load_item_extends (fields : list (string * FieldInfo)) :
  Forall (fun item : string * FieldInfo =>
            forall s, exists new,
              snd (let (annotation, s1) := load_field (snd item) s in
                   ((fst item, annotation), s1)) = (s ++ new)%list)
         fields.
Proof.
  apply Forall_forall. intros [n [a]] _ s. cbn [fst snd load_field].
  destruct (load_type_extends a s) as [new H]. exists new.
  destruct (load_type a s). exact H.
Qed.

Lemma load_fields_agree (fields : list (string * FieldInfo)) :
  Forall (fun item : string * FieldInfo => type_agrees (annotation (snd item)))
         fields ->
  forall s more,
    exists d0,
      forall d, (d0 <= d)%nat ->
        let loaded :=
          load_list (fun (item : string * FieldInfo) s0 =>
                       let (annotation, s1) := load_field (snd item) s0 in
                       ((fst item, annotation), s1))
                    fields s in
        let classes := Store.lookup_class (snd loaded ++ more)%list in
        agrees (mapM (fun item => _pydantic_to_field (fst item) (snd item))
                     fields)
               (Store.fields_of_items classes (Store.fields_of classes d)
                  (fst loaded)).
Proof.
  induction 1 as [| [n [a]] rest Ha _ IH]; intros s more.
  - exists O. intros d _. reflexivity.
  - cbn [load_list fst snd load_field annotation] in *.
    destruct (load_list_extends _ rest (load_item_extends rest)
                (snd (load_type a s))) as [nr Hnr].
    destruct (Ha s (nr ++ more)%list) as [d1 H1]. clear Ha.
    pose proof (load_is_nullable a s) as Hnull.
    destruct (load_type a s) as [a' sa] eqn:Ea. cbn [fst snd] in *.
    destruct (IH sa more) as [d2 H2]. clear IH.
    destruct (load_list _ rest sa) as [rest' s1]. cbn [fst snd] in *.
    subst s1. rewrite app_assoc in H1.
    exists (Nat.max d1 d2). intros d Hd.
    specialize (H1 d ltac:(lia)). specialize (H2 d ltac:(lia)).
    cbv zeta in *. cbn [mapM Store.fields_of_items].
    unfold _pydantic_to_field at 1. cbn [fst snd]. rewrite Hnull.
    destruct (_pydantic_to_arrow_type (Build_FieldInfo a)) as [dt | e].
    + apply agrees_Ok in H1. rewrite H1. cbn [bind].
      destruct (mapM _ rest) as [ys | e].
      * apply agrees_Ok in H2. rewrite H2. reflexivity.
      * apply agrees_Raise in H2 as [e' [-> H2]]. apply H2.
    + apply agrees_Raise in H1 as [e' [-> H1]]. apply H1.
Qed.

Lemma load_model_agrees (name : string) (fields : list (string * FieldInfo))
    (mixin : option FixedSizeListImpl) :
  Forall (fun item : string * FieldInfo => type_agrees (annotation (snd item)))
         fields ->
  forall s more,
    exists d0,
      forall d, (d0 <= d)%nat ->
        let m := Build_BaseModel name fields mixin in
        let classes :=
          Store.lookup_class (snd (load_model m s) ++ more)%list in
        (exists cl items,
            classes (fst (load_model m s)) = Some cl /\
            Store.class_model_fields cl = Some items) /\
        agrees (_pydantic_model_to_fields m)
               (Store.fields_of classes d (fst (load_model m s))).
Proof.
  intros Hfields s more. cbv zeta. cbn [load_model].
  destruct (load_fields_agree fields Hfields s
              (Store.Class (Store.Build_class_object name
                 (Some (fst (load_list
                    (fun (item : string * FieldInfo) s0 =>
                       let (annotation, s1) := load_field (snd item) s0 in
                       ((fst item, annotation), s1)) fields s))) mixin)
               :: more))
    as [d0 H].
  cbv zeta in H.
  destruct (load_list _ fields s) as [fields' s1]. cbn [fst snd] in *.
  exists (S d0). intros d Hd. destruct d as [| d]; [lia | ].
  specialize (H d ltac:(lia)).
  rewrite _pydantic_model_to_fields_eq. cbn [model_fields Store.fields_of].
  rewrite lookup_class_new. cbn [Store.class_model_fields].
  split; [eexists; eexists; split; reflexivity | ].
  rewrite <- app_assoc. exact H.
Qed.

(** The two embeddings translate every annotation alike. *)
Lemma load_type_agrees (t : py_type) : type_agrees t.
Proof.
  induction t using py_type_nested_ind; intros s more.
  - (* a built-in class *)
    exists O. intros d _. destruct c; reflexivity.
  - (* a class that is no model *)
    exists O. intros d _. cbv zeta. cbn [load_type fst snd Store.type_of].
    rewrite lookup_class_new.
    cbn [Store.class_model_fields Store.class_mixin].
    destruct mixin as [impl | ]; [ | reflexivity].
    apply (agrees_lifted
             (value_type <- call_static (impl_value_arrow_type impl) ;;
              list_size <- call_static (impl_dim impl) ;;
              pa_list_ value_type list_size)).
  - (* a model *)
    destruct (load_model_agrees name fields mixin H s more) as [d0 Hd0].
    exists d0. intros d Hd. specialize (Hd0 d Hd). cbv zeta in *.
    cbn [load_type].
    destruct (load_model (Build_BaseModel name fields mixin) s)
      as [address s1] eqn:E.
    cbn [fst snd] in *. destruct Hd0 as [[cl [items [Hcl Hitems]]] Hd0].
    change (_pydantic_to_arrow_type
              (Build_FieldInfo (model_class (Build_BaseModel name fields mixin))))
      with (fs <- _pydantic_model_to_fields (Build_BaseModel name fields mixin) ;;
            Ok (struct fs)).
    cbn [Store.type_of]. rewrite Hcl, Hitems.
    destruct (_pydantic_model_to_fields (Build_BaseModel name fields mixin))
      as [fs | e].
    + apply agrees_Ok in Hd0. rewrite Hd0. reflexivity.
    + apply agrees_Raise in Hd0 as [e' [-> Hd0]]. apply Hd0.
  - exists O. intros d _. reflexivity.
  - exists O. intros d _. reflexivity.
  - (* an alias: its arguments are looked at, and not translated *)
    exists O. intros d _. cbv zeta. cbn [load_type].
    pose proof (load_eq_list t s) as Hl. pose proof (load_eq_Union t s) as HU.
    destruct (load_type t s) as [origin' s1]. cbn [fst] in Hl, HU.
    cbn [_pydantic_to_arrow_type].
    destruct args as [| a0 [| a1 [| a2 rest]]]; cbn [load_list].
    + cbn [fst Store.type_of]. rewrite Hl, HU.
      destruct (eq_list t); [reflexivity | ].
      destruct (eq_Union t); reflexivity.
    + pose proof (load_scalar a0 s1) as H0.
      destruct (load_type a0 s1) as [a0' s2]. cbn [fst] in H0.
      cbn [fst Store.type_of]. rewrite Hl, HU.
      destruct (eq_list t).
      * cbn [getitem nth_error bind].
        destruct (_py_type_to_arrow_type a0) as [vt | e].
        -- apply agrees_Ok in H0. rewrite H0. reflexivity.
        -- apply agrees_Raise in H0 as [e' [-> H0]]. apply H0.
      * destruct (eq_Union t); reflexivity.
    + pose proof (load_scalar a0 s1) as H0.
      destruct (load_type a0 s1) as [a0' s2]. cbn [fst] in H0.
      pose proof (load_eq_NoneType a1 s2) as HN.
      destruct (load_type a1 s2) as [a1' s3]. cbn [fst] in HN.
      cbn [fst Store.type_of]. rewrite Hl, HU, HN.
      destruct (eq_list t).
      * cbn [getitem nth_error bind].
        destruct (_py_type_to_arrow_type a0) as [vt | e].
        -- apply agrees_Ok in H0. rewrite H0. reflexivity.
        -- apply agrees_Raise in H0 as [e' [-> H0]]. apply H0.
      * destruct (eq_Union t); [ | reflexivity].
        destruct (eq_NoneType a1); [exact H0 | reflexivity].
    + pose proof (load_scalar a0 s1) as H0.
      destruct (load_type a0 s1) as [a0' s2]. cbn [fst] in H0.
      destruct (load_type a1 s2) as [a1' s3].
      destruct (load_type a2 s3) as [a2' s4].
      destruct (load_list load_type rest s4) as [rest' s5].
      cbn [fst Store.type_of]. rewrite Hl, HU.
      destruct (eq_list t).
      * cbn [getitem nth_error bind].
        destruct (_py_type_to_arrow_type a0) as [vt | e].
        -- apply agrees_Ok in H0. rewrite H0. reflexivity.
        -- apply agrees_Raise in H0 as [e' [-> H0]]. apply H0.
      * destruct (eq_Union t); reflexivity.
  - exists O. intros d _. cbv zeta. cbn [load_type].
    destruct (load_list load_type args s). reflexivity.
  - exists O. intros d _. reflexivity.
Qed.

(** A tree-shaped model, loaded into any store, is translated by a run as
    it is by the first embedding: to the same schema or with the same
    exception, under every bound on the nesting that is large enough. *)
Theorem loaded_model_translates (m : BaseModel) (s : Store.store) :
  exists d0,
    forall depth, (d0 <= depth)%nat ->
      agrees (pydantic_to_schema m)
             (fst (Store.pydantic_to_schema depth (fst (load_model m s))
                     (snd (load_model m s)))).
Proof.
  destruct m as [name fields mixin].
  destruct (load_model_agrees name fields mixin) with (s := s) (more := @nil Store.object)
    as [d0 H].
  { apply Forall_forall. intros item _. apply load_type_agrees. }
  exists d0. intros depth Hd. specialize (H depth Hd). cbv zeta in H.
  destruct H as [_ H]. rewrite app_nil_r in H.
  destruct (StoreFacts.pydantic_to_schema_runs depth
              (fst (load_model (Build_BaseModel name fields mixin) s))
              (snd (load_model (Build_BaseModel name fields mixin) s)))
    as [new [_ ->]].
  cbn [fst]. unfold pydantic_to_schema.
  destruct (_pydantic_model_to_fields (Build_BaseModel name fields mixin))
    as [fs | e].
  - apply agrees_Ok in H. rewrite H. reflexivity.
  - apply agrees_Raise in H as [e' [-> H]]. apply H.
Qed.

(** [FooModel] of the first embedding, loaded into the empty store. *)
Example loaded_FooModel :
  load_model Examples.FooModel []
  = (1%nat, [Store.Class Store.InnerModel; Store.Class Store.FooModel]).
Proof. reflexivity. Qed.
End LoadFacts.

(* ===================================================================== *)
(** * Vector markers and the validation of their instances *)
(* ===================================================================== *)

Section VectorValidation.
Variable float_validator : py_value -> result py_value.

Lemma length_ok_exact (d : Z) (n : nat) :
  length_ok (Some d) (Some d) n = (Z.of_nat n =? d).
Proof.
  unfold length_ok.
  destruct (Z.of_nat n =? d) eqn:E.
  - apply Z.eqb_eq in E. rewrite E, Z.leb_refl. reflexivity.
  - apply Z.eqb_neq in E. apply andb_false_iff.
    destruct (d <=? Z.of_nat n) eqn:E1; [right | left; reflexivity].
    apply Z.leb_le in E1. apply Z.leb_gt. lia.
Qed.

(** What validating against the marker's schema comes to: a list of
    exactly [d] items, each run through the float validator, then the
    marker class built from the outputs. *)
Lemma validate_vector_eq (d : Z) (value_type : option DataType) (v : py_value) :
  validate_vector float_validator d value_type v =
  match list_items v with
  | Some items =>
      if Z.of_nat (List.length items) =? d then
        out <- mapM float_validator items ;;
        Ok (py_instance (vector d value_type) out)
      else Raise ValidationError
  | None => Raise ValidationError
  end.
Proof.
  unfold validate_vector, __get_pydantic_core_schema__. simpl.
  destruct (list_items v) as [items | ]; [ | reflexivity].
  rewrite length_ok_exact.
  destruct (Z.of_nat (List.length items) =? d); [ | reflexivity].
  destruct (mapM float_validator items); reflexivity.
Qed.

Lemma mapM_repeat (x y : py_value) (n : nat) :
  float_validator x = Ok y ->
  mapM float_validator (repeat x n) = Ok (repeat y n).
Proof.
  intros H. induction n as [| n IH]; simpl; [reflexivity | ].
  rewrite H. simpl. rewrite IH. reflexivity.
Qed.

Lemma validate_vector_Ok (d : Z) (value_type : option DataType) (v : py_value) :
  (exists out, validate_vector float_validator d value_type v = Ok out) <->
  exists items,
    list_items v = Some items /\
    Z.of_nat (List.length items) = d /\
    Forall (fun x => exists y, float_validator x = Ok y) items.
Proof.
  rewrite validate_vector_eq. split.
  - intros [out H]. destruct (list_items v) as [items | ]; [ | discriminate].
    exists items. split; [reflexivity | ].
    destruct (Z.of_nat (List.length items) =? d) eqn:E; [ | discriminate].
    apply Z.eqb_eq in E. split; [exact E | ].
    apply bind_Ok in H as [ys [Hys _]].
    exact (mapM_Ok_Forall float_validator items ys Hys).
  - intros [items [-> [Hlen Hall]]].
    apply Z.eqb_eq in Hlen. rewrite Hlen.
    destruct (mapM_all_Ok float_validator items) as [ys Hys].
    + intros x Hin. rewrite Forall_forall in Hall. exact (Hall x Hin).
    + rewrite Hys. eexists. reflexivity.
Qed.
End VectorValidation.

(** C6.  The class [vector(d, value_type)] returns answers [d] from [dim()]
    and the given element type, [float32] when none is given, from
    [value_arrow_type()]; a field declared [vector(768)] has the type
    fixed-size list of 768 [float32]; a list whose length is not [d] fails
    validation, one of 767 or 769 items against [vector(768)] in
    particular; a list of exactly [d] items the float validator accepts
    validates to an instance of the class, one of 768 such items against
    [vector(768)] in particular. *)
Theorem vector_contract (float_validator : py_value -> result py_value)
    (d : Z) (value_type : option DataType) :
  dim (vector d value_type) = Some d /\
  value_arrow_type (vector d value_type)
  = Some (value_type_or_default value_type) /\
  value_type_or_default None = float32 /\
  (forall t, value_type_or_default (Some t) = t) /\
  _pydantic_to_arrow_type (Build_FieldInfo (vector 768 None))
  = Ok (fixed_size_list float32 768) /\
  (forall items,
      Z.of_nat (List.length items) <> d ->
      validate_vector float_validator d value_type (py_list items)
      = Raise ValidationError) /\
  (forall items,
      Z.of_nat (List.length items) = d ->
      Forall (fun x => exists y, float_validator x = Ok y) items ->
      exists out,
        validate_vector float_validator d value_type (py_list items)
        = Ok (py_instance (vector d value_type) out)) /\
  (forall x,
      validate_vector float_validator 768 None (py_list (repeat x 767))
      = Raise ValidationError /\
      validate_vector float_validator 768 None (py_list (repeat x 769))
      = Raise ValidationError) /\
  (forall x y,
      float_validator x = Ok y ->
      validate_vector float_validator 768 None (py_list (repeat x 768))
      = Ok (py_instance (vector 768 None) (repeat y 768))).
Proof.
  repeat split; try reflexivity.
  - intros items Hlen.
    rewrite (validate_vector_eq float_validator d value_type (py_list items)).
    simpl. apply Z.eqb_neq in Hlen. rewrite Hlen. reflexivity.
  - intros items Hlen Hall.
    rewrite (validate_vector_eq float_validator d value_type (py_list items)).
    simpl. apply Z.eqb_eq in Hlen. rewrite Hlen.
    destruct (mapM_all_Ok float_validator items) as [ys Hys].
    + intros x Hin. rewrite Forall_forall in Hall. exact (Hall x Hin).
    + rewrite Hys. eexists. reflexivity.
  - intros x y Hx.
    rewrite (validate_vector_eq float_validator 768 None
               (py_list (repeat x 768))).
    cbn [list_items]. rewrite repeat_length.
    rewrite (mapM_repeat float_validator x y 768 Hx). reflexivity.
Qed.

(** Three floats validate as a [vector(3)] under a validator that takes
    floats. *)
Lemma vector_contract_witness :
  exists out,
    validate_vector Examples.strict_float 3 None
      (py_list [py_float "0.5"; py_float "1.5"; py_float "2.5"])
    = Ok (py_instance (vector 3 None) out).
Proof.
  apply (proj1 (proj2 (proj2 (proj2 (proj2 (proj2 (proj2
           (vector_contract Examples.strict_float 3 None)))))))).
  - reflexivity.
  - repeat constructor; eexists; reflexivity.
Defined.

(** C10.  Validation against [vector(d, value_type)] succeeds exactly on a
    list of [d] items that each pass the float validator; the declared
    element type takes no part in it: the list schema is the same for every
    element type, the outcome is the same for any two of them, and floats
    that are no integers validate as a vector declared with [int64]
    elements. *)
Theorem vector_validation_ignores_value_type
    (float_validator : py_value -> result py_value)
    (d : Z) (value_type : option DataType) (v : py_value) :
  ((exists out, validate_vector float_validator d value_type v = Ok out) <->
   exists items,
     list_items v = Some items /\
     Z.of_nat (List.length items) = d /\
     Forall (fun x => exists y, float_validator x = Ok y) items) /\
  (forall value_type',
      (exists out, validate_vector float_validator d value_type v = Ok out) <->
      (exists out, validate_vector float_validator d value_type' v = Ok out)) /\
  (forall t,
      __get_pydantic_core_schema__ d t
      = no_info_after_validator_function (FixedSizeList d t)
          (list_schema float_schema (Some d) (Some d))) /\
  validate_vector Examples.strict_float 2 (Some int64)
    (py_list [py_float "0.5"; py_float "1.5"])
  = Ok (py_instance (vector 2 (Some int64)) [py_float "0.5"; py_float "1.5"]).
Proof.
  split; [apply validate_vector_Ok | ].
  split; [ | split; [reflexivity | reflexivity]].
  intros value_type'. rewrite !validate_vector_Ok. reflexivity.
Qed.

(* ===================================================================== *)
(** * The URI helpers *)
(* ===================================================================== *)

(** ** When the parser returns *)

Module UrlFacts.
Import UrlLib UrlShape.

Lemma contains_cons (c a : ascii) (s : string) :
  contains c (String a s) = Ascii.eqb a c || contains c s.
Proof.
  unfold contains. simpl. destruct (Ascii.eqb a c); [reflexivity | ].
  destruct (find c s); reflexivity.
Qed.

Lemma contains_take (c : ascii) (n : nat) (s : string) :
  contains c s = false -> contains c (take n s) = false.
Proof.
  revert n. induction s as [| a s IH]; intros [| n] H; try reflexivity.
  rewrite contains_cons in H. apply orb_false_iff in H as [Ha Hs].
  simpl. rewrite contains_cons, Ha. simpl. apply IH. exact Hs.
Qed.

Lemma contains_drop (c : ascii) (n : nat) (s : string) :
  contains c s = false -> contains c (drop n s) = false.
Proof.
  revert n. induction s as [| a s IH]; intros [| n] H; try exact H.
  rewrite contains_cons in H. apply orb_false_iff in H as [_ Hs].
  simpl. apply IH. exact Hs.
Qed.

Lemma contains_lstrip_c0 (c : ascii) (s : string) :
  contains c s = false -> contains c (lstrip_c0 s) = false.
Proof.
  induction s as [| a s IH]; intros H; [exact H | ].
  simpl. destruct (code a <=? 32)%N; [ | exact H].
  rewrite contains_cons in H. apply orb_false_iff in H as [_ Hs].
  apply IH. exact Hs.
Qed.

Lemma contains_remove_unsafe (c : ascii) (s : string) :
  contains c s = false -> contains c (remove_unsafe s) = false.
Proof.
  induction s as [| a s IH]; intros H; [exact H | ].
  rewrite contains_cons in H. apply orb_false_iff in H as [Ha Hs].
  simpl.
  destruct ((code a =? 9)%N || (code a =? 13)%N || (code a =? 10)%N).
  - apply IH. exact Hs.
  - rewrite contains_cons, Ha. simpl. apply IH. exact Hs.
Qed.

Lemma isascii_take (n : nat) (s : string) :
  isascii s = true -> isascii (take n s) = true.
Proof.
  revert n. induction s as [| a s IH]; intros [| n] H; try reflexivity.
  simpl in *. apply andb_true_iff in H as [Ha Hs].
  rewrite Ha, (IH n Hs). reflexivity.
Qed.

Lemma isascii_drop (n : nat) (s : string) :
  isascii s = true -> isascii (drop n s) = true.
Proof.
  revert n. induction s as [| a s IH]; intros [| n] H; try exact H.
  simpl in *. apply andb_true_iff in H as [_ Hs]. exact (IH n Hs).
Qed.

Lemma isascii_lstrip_c0 (s : string) :
  isascii s = true -> isascii (lstrip_c0 s) = true.
Proof.
  induction s as [| a s IH]; intros H; [exact H | ].
  simpl. destruct (code a <=? 32)%N; [ | exact H].
  simpl in H. apply andb_true_iff in H as [_ Hs]. exact (IH Hs).
Qed.

Lemma isascii_remove_unsafe (s : string) :
  isascii s = true -> isascii (remove_unsafe s) = true.
Proof.
  induction s as [| a s IH]; intros H; [exact H | ].
  simpl in H. apply andb_true_iff in H as [Ha Hs]. simpl.
  destruct ((code a =? 9)%N || (code a =? 13)%N || (code a =? 10)%N).
  - exact (IH Hs).
  - simpl. rewrite Ha, (IH Hs). reflexivity.
Qed.

(** What follows the scheme is the end of the cleaned string. *)
Lemma after_scheme_drop (url : string) :
  exists n, snd (split_scheme url) = drop n url.
Proof.
  unfold split_scheme.
  destruct (find ":" url) as [[| i'] | ]; try (exists O; reflexivity).
  destruct url as [| first tail]; [exists O; reflexivity | ].
  destruct (is_ascii_alpha first && _); cbn [snd];
    [eexists; reflexivity | exists O; reflexivity].
Qed.

(** The netloc is a piece of what follows the scheme. *)
Lemma netloc_piece (u : string) :
  exists n m, fst (netloc_split u) = take n (drop m u).
Proof.
  unfold netloc_split.
  destruct (String.eqb (take 2 u) "//").
  - unfold _splitnetloc. cbn [fst]. eexists. exists 2%nat. reflexivity.
  - exists O, O. destruct u; reflexivity.
Qed.

Lemma netloc_contains (c : ascii) (url : string) :
  contains c url = false ->
  contains c (fst (netloc_split (snd (split_scheme (clean url))))) = false.
Proof.
  intros H.
  destruct (after_scheme_drop (clean url)) as [k ->].
  destruct (netloc_piece (drop k (clean url))) as [n [m ->]].
  apply contains_take, contains_drop, contains_drop.
  apply contains_remove_unsafe, contains_lstrip_c0. exact H.
Qed.

Lemma netloc_isascii (url : string) :
  isascii url = true ->
  isascii (fst (netloc_split (snd (split_scheme (clean url))))) = true.
Proof.
  intros H.
  destruct (after_scheme_drop (clean url)) as [k ->].
  destruct (netloc_piece (drop k (clean url))) as [n [m ->]].
  apply isascii_take, isascii_drop, isascii_drop.
  apply isascii_remove_unsafe, isascii_lstrip_c0. exact H.
Qed.

(** The parser returns when the netloc holds no square bracket and is
    ASCII: neither of the library's checks is run. *)
Lemma urlsplit_returns (chk : netloc_checks) (url : string) :
  let netloc := fst (netloc_split (snd (split_scheme (clean url)))) in
  contains "[" netloc = false -> contains "]" netloc = false ->
  isascii netloc = true ->
  exists parts, urlsplit chk url = Ok parts.
Proof.
  cbv zeta. unfold urlsplit.
  fold (clean url). fold (split_scheme (clean url)).
  destruct (split_scheme (clean url)) as [sch rest]. cbn [snd].
  unfold netloc_split.
  destruct (String.eqb (take 2 rest) "//").
  - destruct (_splitnetloc rest) as [nl u]. cbn [fst].
    intros -> -> Hascii. cbn [andb orb negb bind].
    unfold _checknetloc. rewrite Hascii, orb_true_r.
    destruct (contains "#" u); [destruct (split_once "#" u) as [u1 f] | ];
      match goal with
      | |- context [contains "?" ?x] =>
          destruct (contains "?" x); [destruct (split_once "?" x) | ]
      end; eexists; reflexivity.
  - intros _ _ _. cbn [bind].
    destruct (contains "#" rest); [destruct (split_once "#" rest) as [u1 f] | ];
      match goal with
      | |- context [contains "?" ?x] =>
          destruct (contains "?" x); [destruct (split_once "?" x) | ]
      end; eexists; reflexivity.
Qed.

Lemma urlparse_returns (chk : netloc_checks) (url : string) :
  let netloc := fst (netloc_split (snd (split_scheme (clean url)))) in
  contains "[" netloc = false -> contains "]" netloc = false ->
  isascii netloc = true ->
  exists parsed, urlparse chk url = Ok parsed.
Proof.
  cbv zeta. intros Hopen Hclose Hascii. unfold urlparse.
  destruct (urlsplit_returns chk url Hopen Hclose Hascii)
    as [[[[[scheme netloc] rest] query] fragment] ->].
  cbn [bind].
  destruct (in_list scheme uses_params && contains ";" rest);
    [destruct (_splitparams rest) | ]; eexists; reflexivity.
Qed.

(** In particular it returns on every ASCII string without square
    brackets. *)
Lemma urlparse_ascii_without_brackets (chk : netloc_checks) (url : string) :
  isascii url = true ->
  contains "[" url = false -> contains "]" url = false ->
  exists parsed, urlparse chk url = Ok parsed.
Proof.
  intros Hascii Hopen Hclose. apply urlparse_returns.
  - apply netloc_contains. exact Hopen.
  - apply netloc_contains. exact Hclose.
  - apply netloc_isascii. exact Hascii.
Qed.
End UrlFacts.

Section UriHelpers.
Variable lib : UrlLib.netloc_checks.

Let urlparse := UrlLib.urlparse lib.

(** [get_uri_scheme] is a function of the parsed scheme. *)
Lemma get_uri_scheme_parsed (uri : string) (parsed : UrlLib.ParseResult) :
  urlparse uri = Ok parsed ->
  get_uri_scheme lib uri =
  Ok (if String.eqb (UrlLib.scheme parsed) EmptyString then "file"
      else if UrlLib.in_list (UrlLib.scheme parsed) ["s3a"; "s3n"] then "s3"
      else if (String.length (UrlLib.scheme parsed) =? 1)%nat then "file"
      else UrlLib.scheme parsed).
Proof.
  unfold get_uri_scheme, urlparse. intros ->. reflexivity.
Qed.

(** C7, amended.  On a URI that [urlparse] parses, [get_uri_scheme] returns
    ["file"] when the parsed scheme is empty, ["s3"] when it is [s3a] or
    [s3n], ["file"] when it is a single character, and the parsed scheme
    otherwise; on a URI that [urlparse] rejects it raises the exception of
    [urlparse], and it fails in no other way.  [urlparse] parses every
    ASCII string without square brackets.  [get_uri_scheme] returns ["s3"]
    for [s3a://bucket/key] and ["file"] for [/local/path] and for
    [C:\Users\x]. *)
Theorem get_uri_scheme_spec :
  (forall uri parsed,
      urlparse uri = Ok parsed ->
      let scheme := UrlLib.scheme parsed in
      let returned := get_uri_scheme lib uri in
      (scheme = EmptyString -> returned = Ok "file") /\
      (scheme = "s3a" \/ scheme = "s3n" -> returned = Ok "s3") /\
      (String.length scheme = 1%nat -> returned = Ok "file") /\
      (scheme <> EmptyString -> scheme <> "s3a" -> scheme <> "s3n" ->
       String.length scheme <> 1%nat -> returned = Ok scheme)) /\
  (forall uri e,
      get_uri_scheme lib uri = Raise e <-> urlparse uri = Raise e) /\
  (forall uri,
      UrlLib.isascii uri = true ->
      UrlLib.contains "[" uri = false -> UrlLib.contains "]" uri = false ->
      exists returned, get_uri_scheme lib uri = Ok returned) /\
  get_uri_scheme lib "s3a://bucket/key" = Ok "s3" /\
  get_uri_scheme lib "/local/path" = Ok "file" /\
  get_uri_scheme lib "C:\Users\x" = Ok "file".
Proof.
  split; [ | split; [ | split; [ | repeat split]]].
  - intros uri parsed Hparse scheme returned. subst returned.
    rewrite (get_uri_scheme_parsed uri parsed Hparse). fold scheme.
    repeat split.
    + intros ->. reflexivity.
    + intros [-> | ->]; reflexivity.
    + intros Hlen.
      destruct scheme as [| c [| c' rest]]; try discriminate.
      simpl. unfold UrlLib.in_list. simpl.
      destruct (Ascii.eqb c "s"); reflexivity.
    + intros Hne Ha Hn Hlen.
      apply String.eqb_neq in Hne, Ha, Hn. rewrite Hne.
      unfold UrlLib.in_list. simpl. rewrite Ha, Hn. simpl.
      apply Nat.eqb_neq in Hlen. rewrite Hlen. reflexivity.
  - intros uri e. unfold get_uri_scheme. fold urlparse.
    destruct (urlparse uri) as [parsed | e']; simpl;
      split; intros H;
      solve [discriminate | injection H as ->; reflexivity].
  - intros uri Hascii Hopen Hclose.
    destruct (UrlFacts.urlparse_ascii_without_brackets
                lib uri Hascii Hopen Hclose) as [parsed Hparse].
    rewrite (get_uri_scheme_parsed uri parsed Hparse). eexists. reflexivity.
Qed.

(** C8, amended.  On a URI that [urlparse] parses, [get_uri_location]
    returns the parsed path as it is when the parsed netloc is empty, and
    otherwise the netloc followed directly by the path; on a URI that
    [urlparse] rejects it raises the exception of [urlparse], and it fails
    in no other way.  [urlparse] parses every ASCII string without square
    brackets.  [get_uri_location] returns [bucket/key/obj] for
    [s3://bucket/key/obj] and [/local/path] for [/local/path]. *)
Theorem get_uri_location_spec :
  (forall uri parsed,
      urlparse uri = Ok parsed ->
      let returned := get_uri_location lib uri in
      (UrlLib.netloc parsed = EmptyString -> returned = Ok (UrlLib.path parsed)) /\
      (UrlLib.netloc parsed <> EmptyString ->
       returned = Ok (UrlLib.netloc parsed ++ UrlLib.path parsed))) /\
  (forall uri e,
      get_uri_location lib uri = Raise e <-> urlparse uri = Raise e) /\
  (forall uri,
      UrlLib.isascii uri = true ->
      UrlLib.contains "[" uri = false -> UrlLib.contains "]" uri = false ->
      exists returned, get_uri_location lib uri = Ok returned) /\
  get_uri_location lib "s3://bucket/key/obj" = Ok "bucket/key/obj" /\
  get_uri_location lib "/local/path" = Ok "/local/path".
Proof.
  split; [ | split; [ | split; [ | repeat split]]].
  - intros uri parsed Hparse returned. subst returned.
    unfold get_uri_location. fold urlparse. rewrite Hparse. simpl.
    split.
    + intros ->. reflexivity.
    + intros Hne. apply String.eqb_neq in Hne. rewrite Hne. reflexivity.
  - intros uri e. unfold get_uri_location. fold urlparse.
    destruct (urlparse uri) as [parsed | e']; simpl.
    + destruct (String.eqb (UrlLib.netloc parsed) EmptyString);
        split; discriminate.
    + split; intros H; injection H as ->; reflexivity.
  - intros uri Hascii Hopen Hclose.
    destruct (UrlFacts.urlparse_ascii_without_brackets
                lib uri Hascii Hopen Hclose) as [parsed Hparse].
    unfold get_uri_location. rewrite Hparse. simpl.
    destruct (String.eqb (UrlLib.netloc parsed) EmptyString);
      eexists; reflexivity.
Qed.
End UriHelpers.

(** The scheme of [S3N://Bucket/data] parses to [s3n] and is returned as
    ["s3"]. *)
Lemma get_uri_scheme_spec_witness :
  get_uri_scheme UrlLib.accepting "S3N://Bucket/data" = Ok "s3".
Proof.
  refine (proj1 (proj2 (proj1 (get_uri_scheme_spec UrlLib.accepting)
                          "S3N://Bucket/data" _ eq_refl)) _).
  right. reflexivity.
Defined.

(** [gs://bucket/table] has the netloc [bucket], which is joined to the
    path. *)
Lemma get_uri_location_spec_witness :
  get_uri_location UrlLib.accepting "gs://bucket/table" = Ok "bucket/table".
Proof.
  refine (proj2 (proj1 (get_uri_location_spec UrlLib.accepting)
                   "gs://bucket/table" _ eq_refl) _).
  discriminate.
Defined.

(** [//[x] has no scheme segment, and [get_uri_scheme] does not return
    ["file"] for it: the netloc [[x] has a bracket that is not closed, and
    the [ValueError] of [urlparse] leaves the helper. *)
Lemma get_uri_scheme_raises :
  UrlShape.split_scheme (UrlShape.clean "//[x") = (EmptyString, "//[x") /\
  get_uri_scheme UrlLib.accepting "//[x" = Raise (ValueError "Invalid IPv6 URL").
Proof. split; reflexivity. Qed.

(** [//[x] has the network location [[x] and no path, and
    [get_uri_location] returns nothing for it. *)
Lemma get_uri_location_raises :
  UrlShape.netloc_split "//[x" = ("[x", EmptyString) /\
  get_uri_location UrlLib.accepting "//[x"
  = Raise (ValueError "Invalid IPv6 URL").
Proof. split; reflexivity. Qed.

(** These exceptions come before the library's checks are run, and so
    whatever the checks are; the same holds of a bracket that is not
    opened. *)
Example unbalanced_bracket_raises (chk : UrlLib.netloc_checks) :
  get_uri_scheme chk "//[x" = Raise (ValueError "Invalid IPv6 URL") /\
  get_uri_location chk "//[x" = Raise (ValueError "Invalid IPv6 URL") /\
  get_uri_scheme chk "//x]" = Raise (ValueError "Invalid IPv6 URL") /\
  get_uri_location chk "//x]" = Raise (ValueError "Invalid IPv6 URL").
Proof. repeat split; reflexivity. Qed.

(** The normalization check can reject a netloc that is not ASCII, and
    with it the URI. *)
Example nfkc_check_raises (chk : UrlLib.netloc_checks) :
  UrlLib.nfkc_adds_delimiter chk (String "226"%char "b") = true ->
  get_uri_location chk ("s3://" ++ String "226"%char "b/k")
  = Raise (ValueError
             ("netloc '" ++ String "226"%char "b"
              ++ "' contains invalid characters under NFKC normalization")).
Proof.
  intros H. unfold get_uri_location, UrlLib.urlparse, UrlLib.urlsplit.
  cbn. rewrite H. reflexivity.
Qed.

(* ===================================================================== *)
(** * Further properties of the URI helpers *)
(* ===================================================================== *)

Module UrlMore.
Import UrlLib UrlShape UrlFacts.
Local Open Scope char_scope.

(** ** Characters *)

Lemma alpha_not_c0 (c : ascii) :
  is_ascii_alpha c = true -> (code c <=? 32)%N = false.
Proof.
  destruct c as [[] [] [] [] [] [] [] []]; vm_compute; congruence.
Qed.

Lemma scheme_char_safe (c : ascii) :
  in_scheme_chars c = true ->
  unsafe c = false /\ Ascii.eqb c ":" = false /\ Ascii.eqb c "/" = false.
Proof.
  destruct c as [[] [] [] [] [] [] [] []]; vm_compute; intuition congruence.
Qed.

Lemma lower_char_shape (c : ascii) :
  in_scheme_chars c = true -> lower_scheme_char (lower_char c) = true.
Proof.
  destruct c as [[] [] [] [] [] [] [] []]; vm_compute; congruence.
Qed.

Lemma plain_char_spec (c : ascii) :
  plain_char c = true ->
  unsafe c = false /\ Ascii.eqb c "?" = false /\ Ascii.eqb c "#" = false /\
  Ascii.eqb c ";" = false /\ Ascii.eqb c "[" = false /\ Ascii.eqb c "]" = false.
Proof.
  unfold plain_char. intros H. apply negb_true_iff in H.
  do 5 (apply orb_false_iff in H as [H ?]). repeat split; assumption.
Qed.

(** ** Strings *)

Lemma contains_false_all (c : ascii) (s : string) :
  contains c s = false <-> all_chars (fun a => negb (Ascii.eqb a c)) s = true.
Proof.
  induction s as [| a s IH]; simpl; [split; reflexivity | ].
  rewrite contains_cons, orb_false_iff, andb_true_iff, negb_true_iff, IH.
  reflexivity.
Qed.

Lemma all_chars_impl (p q : ascii -> bool) (s : string) :
  (forall c, p c = true -> q c = true) ->
  all_chars p s = true -> all_chars q s = true.
Proof.
  intros Hpq. induction s as [| a s IH]; simpl; [reflexivity | ].
  intros H. apply andb_true_iff in H as [Ha Hs].
  rewrite (Hpq a Ha), (IH Hs). reflexivity.
Qed.

Lemma all_chars_append (p : ascii -> bool) (s t : string) :
  all_chars p (s ++ t) = all_chars p s && all_chars p t.
Proof.
  induction s as [| a s IH]; simpl; [reflexivity | ].
  rewrite IH, andb_assoc. reflexivity.
Qed.

Lemma all_chars_take (p : ascii -> bool) (n : nat) (s : string) :
  all_chars p s = true -> all_chars p (take n s) = true.
Proof.
  revert n. induction s as [| a s IH]; intros [| n] H; try reflexivity.
  simpl in *. apply andb_true_iff in H as [Ha Hs].
  rewrite Ha, (IH n Hs). reflexivity.
Qed.

Lemma all_chars_drop (p : ascii -> bool) (n : nat) (s : string) :
  all_chars p s = true -> all_chars p (drop n s) = true.
Proof.
  revert n. induction s as [| a s IH]; intros [| n] H; try exact H.
  simpl in *. apply andb_true_iff in H as [_ Hs]. exact (IH n Hs).
Qed.

Lemma all_in_scheme_chars_all (s : string) :
  all_in_scheme_chars s = all_chars in_scheme_chars s.
Proof. induction s as [| a s IH]; simpl; [ | rewrite IH]; reflexivity. Qed.

Lemma take_drop (n : nat) (s : string) : (take n s ++ drop n s)%string = s.
Proof.
  revert n. induction s as [| a s IH]; intros [| n]; simpl; try reflexivity.
  rewrite IH. reflexivity.
Qed.

Lemma take_length_append (s t : string) : take (String.length s) (s ++ t) = s.
Proof. induction s as [| a s IH]; simpl; [destruct t | rewrite IH]; reflexivity. Qed.

Lemma drop_length_append (s t : string) : drop (String.length s) (s ++ t) = t.
Proof. induction s as [| a s IH]; simpl; [destruct t | ]; auto. Qed.

Lemma find_append_absent (c : ascii) (s t : string) :
  contains c s = false ->
  find c (s ++ String c t) = Some (String.length s).
Proof.
  induction s as [| a s IH]; simpl.
  - rewrite Ascii.eqb_refl. reflexivity.
  - rewrite contains_cons. intros H. apply orb_false_iff in H as [Ha Hs].
    rewrite Ha, (IH Hs). reflexivity.
Qed.

Lemma find_None_contains (c : ascii) (s : string) :
  find c s = None <-> contains c s = false.
Proof. unfold contains. destruct (find c s); split; congruence. Qed.

Lemma find_Some_take (c : ascii) (s : string) (i n : nat) :
  find c s = Some i -> (n <= i)%nat -> contains c (take n s) = false.
Proof.
  revert i n. induction s as [| a s IH]; intros i n; simpl; [discriminate | ].
  destruct (Ascii.eqb a c) eqn:E.
  - intros H Hn. injection H as <-. assert (n = O) by lia. subst. reflexivity.
  - destruct (find c s) as [j | ] eqn:F; [ | discriminate].
    intros H Hn. injection H as <-. destruct n as [| n]; [reflexivity | ].
    simpl. rewrite contains_cons, E. simpl. apply (IH j); [reflexivity | lia].
Qed.

Lemma remove_unsafe_id (s : string) :
  all_chars (fun c => negb (unsafe c)) s = true -> remove_unsafe s = s.
Proof.
  induction s as [| a s IH]; simpl; [reflexivity | ].
  intros H. apply andb_true_iff in H as [Ha Hs].
  apply negb_true_iff in Ha. unfold unsafe in Ha. rewrite Ha, (IH Hs).
  reflexivity.
Qed.

Lemma remove_unsafe_safe (s : string) :
  all_chars (fun c => negb (unsafe c)) (remove_unsafe s) = true.
Proof.
  induction s as [| a s IH]; simpl; [reflexivity | ].
  destruct ((code a =? 9)%N || (code a =? 13)%N || (code a =? 10)%N) eqn:E;
    [exact IH | ].
  simpl. unfold unsafe at 1. rewrite E, IH. reflexivity.
Qed.

Lemma lstrip_c0_id (s : string) : no_leading_c0 s = true -> lstrip_c0 s = s.
Proof.
  destruct s as [| a s]; simpl; [reflexivity | ].
  intros H. apply negb_true_iff in H. rewrite H. reflexivity.
Qed.

(** ** The scheme the parser returns *)

Lemma urlsplit_scheme (chk : netloc_checks) (url : string)
    (parts : string * string * string * string * string) :
  urlsplit chk url = Ok parts ->
  fst (fst (fst (fst parts))) = fst (split_scheme (clean url)).
Proof.
  unfold urlsplit. fold (clean url). fold (split_scheme (clean url)).
  destruct (split_scheme (clean url)) as [sch u1]. cbn [fst].
  match goal with
  | |- bind ?c _ = _ -> _ => destruct c as [[nl u2] | e]
  end; cbn [bind]; [ | discriminate].
  repeat match goal with
  | |- context [if ?b then _ else _] => destruct b
  | |- context [split_once ?c ?x] => destruct (split_once c x)
  end;
  destruct (_checknetloc chk nl) as [[] | e]; cbn [bind];
    solve [discriminate | intros H; injection H as <-; reflexivity].
Qed.

Lemma urlparse_scheme (chk : netloc_checks) (url : string)
    (p : ParseResult) :
  urlparse chk url = Ok p -> scheme p = fst (split_scheme (clean url)).
Proof.
  unfold urlparse.
  destruct (urlsplit chk url) as [[[[[sch nl] u] q] f] | e] eqn:E;
    cbn [bind]; [ | discriminate].
  apply urlsplit_scheme in E. cbn [fst] in E.
  destruct (in_list sch uses_params && contains ";" u);
    [destruct (_splitparams u) | ]; intros H; injection H as <-; exact E.
Qed.

Lemma split_scheme_shape (url : string) :
  let sch := fst (split_scheme url) in
  sch = EmptyString \/
  (sch <> EmptyString /\ all_chars lower_scheme_char sch = true).
Proof.
  unfold split_scheme.
  destruct (find ":" url) as [[| i'] | ]; try (left; reflexivity).
  destruct url as [| first rest]; [left; reflexivity | ].
  destruct (is_ascii_alpha first && _) eqn:E; [ | left; reflexivity].
  right. cbn [fst]. apply andb_true_iff in E as [_ E].
  rewrite all_in_scheme_chars_all in E. simpl take in *.
  split; [simpl; discriminate | ].
  revert E. generalize (String first (take i' rest)). intros s.
  induction s as [| a s IH]; simpl; [reflexivity | ].
  intros H. apply andb_true_iff in H as [Ha Hs].
  rewrite (lower_char_shape a Ha), (IH Hs). reflexivity.
Qed.


(** X1.  Whatever [get_uri_scheme] returns is a usable scheme name: it is
    never empty, never a single character, never [s3a] or [s3n], and it is
    made of lower-case letters, digits and [+-.] only. *)
Theorem get_uri_scheme_shape (chk : netloc_checks)
    (uri returned : string) :
  get_uri_scheme chk uri = Ok returned ->
  returned <> EmptyString /\
  (2 <= String.length returned)%nat /\
  returned <> "s3a"%string /\ returned <> "s3n"%string /\
  all_chars lower_scheme_char returned = true.
Proof.
  intros H.
  destruct (urlparse chk uri) as [parsed | e] eqn:Hparse.
  - rewrite (get_uri_scheme_parsed chk uri parsed Hparse) in H.
    pose proof (split_scheme_shape (clean uri)) as Hshape.
    cbv zeta in Hshape. rewrite <- (urlparse_scheme chk uri parsed Hparse) in Hshape.
    destruct (String.eqb (scheme parsed) EmptyString) eqn:Eempty.
    { injection H as <-. repeat split; try discriminate. simpl. lia. }
    unfold in_list in H. cbn [existsb] in H.
    destruct (String.eqb (scheme parsed) "s3a") eqn:Ea.
    { injection H as <-. repeat split; try discriminate. simpl. lia. }
    destruct (String.eqb (scheme parsed) "s3n") eqn:En.
    { injection H as <-. repeat split; try discriminate. simpl. lia. }
    cbn [orb] in H.
    destruct (String.length (scheme parsed) =? 1)%nat eqn:Elen.
    { injection H as <-. repeat split; try discriminate. simpl. lia. }
    injection H as <-.
    apply String.eqb_neq in Eempty, Ea, En. apply Nat.eqb_neq in Elen.
    destruct Hshape as [Hs | [_ Hs]]; [contradiction | ].
    repeat split; try assumption.
    destruct (scheme parsed) as [| a [| b rest]]; simpl in *;
      [contradiction | lia | lia].
  - unfold get_uri_scheme in H. rewrite Hparse in H. discriminate.
Qed.

Lemma get_uri_scheme_shape_witness :
  ("gs" <> EmptyString /\
   (2 <= String.length "gs")%nat /\
   "gs" <> "s3a" /\ "gs" <> "s3n" /\
   all_chars lower_scheme_char "gs" = true)%string.
Proof.
  exact (get_uri_scheme_shape accepting "GS://Bucket/table" "gs" eq_refl).
Defined.

Lemma no_colon_is_file (chk : netloc_checks) (uri : string) :
  contains ":" uri = false ->
  (forall returned,
      get_uri_scheme chk uri = Ok returned -> returned = "file"%string) /\
  (forall parsed,
      urlparse chk uri = Ok parsed -> get_uri_scheme chk uri = Ok "file"%string).
Proof.
  intros Hcolon.
  assert (Hfile : forall returned,
             get_uri_scheme chk uri = Ok returned -> returned = "file"%string).
  { intros returned H.
    destruct (urlparse chk uri) as [parsed | e] eqn:Hparse.
    - rewrite (get_uri_scheme_parsed chk uri parsed Hparse) in H.
      rewrite (urlparse_scheme chk uri parsed Hparse) in H.
      assert (Hc : contains ":" (clean uri) = false)
        by (apply contains_remove_unsafe, contains_lstrip_c0; exact Hcolon).
      apply find_None_contains in Hc. unfold split_scheme in H.
      rewrite Hc in H. cbn in H. injection H as <-. reflexivity.
    - unfold get_uri_scheme in H. rewrite Hparse in H. discriminate. }
  split; [exact Hfile | ].
  intros parsed Hparse.
  destruct (get_uri_scheme chk uri) as [returned | e] eqn:E.
  - rewrite (Hfile returned eq_refl). reflexivity.
  - unfold get_uri_scheme in E. rewrite Hparse in E. discriminate.
Qed.

(** X2.  A string without a colon has no scheme: whenever [get_uri_scheme]
    returns on it, it returns ["file"], and it does return when the string
    is ASCII and has no square bracket. *)
Theorem get_uri_scheme_no_colon (chk : netloc_checks) (uri : string) :
  contains ":" uri = false ->
  (forall returned,
      get_uri_scheme chk uri = Ok returned -> returned = "file"%string) /\
  (isascii uri = true ->
   contains "[" uri = false -> contains "]" uri = false ->
   get_uri_scheme chk uri = Ok "file"%string).
Proof.
  intros Hcolon. destruct (no_colon_is_file chk uri Hcolon) as [Hfile Hparsed].
  split; [exact Hfile | ].
  intros Hascii Hopen Hclose.
  destruct (urlparse_ascii_without_brackets chk uri Hascii Hopen Hclose)
    as [parsed Hparse].
  exact (Hparsed parsed Hparse).
Qed.

Lemma get_uri_scheme_no_colon_witness :
  get_uri_scheme accepting "data/sample-lancedb" = Ok "file"%string.
Proof.
  exact (proj2 (get_uri_scheme_no_colon accepting "data/sample-lancedb"
                  eq_refl) eq_refl eq_refl eq_refl).
Defined.

(** X3.  A string that begins with one letter and a colon, as a Windows path
    with a drive letter does, is a local file: whenever [get_uri_scheme]
    returns on it, it returns ["file"]. *)
Theorem get_uri_scheme_drive_letter (chk : netloc_checks)
    (drive : ascii) (rest returned : string) :
  is_ascii_alpha drive = true ->
  get_uri_scheme chk (String drive (String ":" rest)) = Ok returned ->
  returned = "file"%string.
Proof.
  intros Halpha H.
  destruct (urlparse chk (String drive (String ":" rest)))
    as [parsed | e] eqn:Hparse.
  - rewrite (get_uri_scheme_parsed chk _ parsed Hparse) in H.
    rewrite (urlparse_scheme chk _ parsed Hparse) in H.
    assert (Hin : in_scheme_chars drive = true)
      by (unfold in_scheme_chars; rewrite Halpha; reflexivity).
    destruct (scheme_char_safe drive Hin) as [Hsafe [Hcolon _]].
    unfold clean in H. simpl lstrip_c0 in H.
    rewrite (alpha_not_c0 drive Halpha) in H.
    simpl remove_unsafe in H. unfold unsafe in Hsafe. rewrite Hsafe in H.
    unfold split_scheme in H. simpl find in H. rewrite Hcolon in H.
    simpl take in H. simpl all_in_scheme_chars in H.
    rewrite Halpha, Hin in H. cbn [andb fst lower] in H.
    unfold in_list in H. simpl in H.
    destruct (Ascii.eqb (lower_char drive) "s"); simpl in H;
      injection H as <-; reflexivity.
  - unfold get_uri_scheme in H. rewrite Hparse in H. discriminate.
Qed.

Lemma get_uri_scheme_drive_letter_witness :
  exists returned,
    get_uri_scheme accepting "D:\data\db" = Ok returned /\
    returned = "file"%string.
Proof.
  exists "file"%string. split; [reflexivity | ].
  exact (get_uri_scheme_drive_letter accepting "D" "\data\db" "file"
           eq_refl eq_refl).
Defined.


(** ** The netloc and the path the parser returns *)

Lemma urlsplit_parts (chk : netloc_checks) (url : string)
    (sch nl u q f : string) :
  urlsplit chk url = Ok (sch, nl, u, q, f) ->
  sch = fst (split_scheme (clean url)) /\
  nl = fst (netloc_split (snd (split_scheme (clean url)))) /\
  u = strip_fragment_query (snd (netloc_split (snd (split_scheme (clean url))))).
Proof.
  unfold urlsplit. fold (clean url). fold (split_scheme (clean url)).
  destruct (split_scheme (clean url)) as [sch0 u1]. cbn [fst snd].
  unfold netloc_split, strip_fragment_query.
  destruct (String.eqb (take 2 u1) "//");
    [destruct (_splitnetloc u1) as [nl0 u2] | ];
    repeat match goal with
           | |- context [if ?b then Raise _ else _] => destruct b
           | |- context [if contains "[" ?n && contains "]" ?n then _ else _] =>
               destruct (contains "[" n && contains "]" n)
           | |- context [match _check_bracketed_netloc chk ?x with _ => _ end] =>
               destruct (_check_bracketed_netloc chk x)
           end;
    cbn [bind fst snd]; try discriminate;
    match goal with
    | |- context [contains "#" ?x] =>
        destruct (contains "#" x); [destruct (split_once "#" x) | ]
    end; cbn [fst snd];
    match goal with
    | |- context [contains "?" ?x] =>
        destruct (contains "?" x); [destruct (split_once "?" x) | ]
    end; cbn [fst snd];
    match goal with
    | |- context [_checknetloc chk ?x] =>
        destruct (_checknetloc chk x) as [[] | e]
    end; cbn [bind]; try discriminate;
    intros H; injection H as <- <- <- <- <-; repeat split.
Qed.

Lemma urlparse_parts (chk : netloc_checks) (url : string)
    (p : ParseResult) :
  urlparse chk url = Ok p ->
  scheme p = fst (split_scheme (clean url)) /\
  netloc p = fst (netloc_split (snd (split_scheme (clean url)))) /\
  path p = strip_params (scheme p)
             (strip_fragment_query
                (snd (netloc_split (snd (split_scheme (clean url)))))).
Proof.
  unfold urlparse. intros H.
  destruct (urlsplit chk url) as [[[[[sch nl] u] q] f] | e] eqn:E;
    cbn [bind] in H; [ | discriminate].
  apply urlsplit_parts in E as [Hs [Hn Hu]].
  unfold strip_params.
  destruct (in_list sch uses_params && contains ";" u) eqn:Eparams.
  - destruct (_splitparams u) as [u' pa] eqn:Esplit.
    cbn [bind] in H. injection H as <-. cbn [scheme netloc path].
    rewrite <- Hu, <- Hs, Eparams, Esplit. repeat split; assumption.
  - cbn [bind] in H. injection H as <-. cbn [scheme netloc path].
    rewrite <- Hu, <- Hs, Eparams. repeat split; assumption.
Qed.


Lemma take_all (s : string) : take (String.length s) s = s.
Proof. induction s as [| a s IH]; simpl; [ | rewrite IH]; reflexivity. Qed.

Lemma contains_append (c : ascii) (s t : string) :
  contains c (s ++ t) = contains c s || contains c t.
Proof.
  induction s as [| a s IH]; simpl; [reflexivity | ].
  rewrite !contains_cons, IH, orb_assoc. reflexivity.
Qed.

Lemma starts_with_slashes (u : string) :
  String.eqb (take 2 u) "//" = true ->
  exists r, u = String "/" (String "/" r).
Proof.
  destruct u as [| a [| b r]]; cbn [take]; intros H;
    apply String.eqb_eq in H; try discriminate.
  injection H as -> ->. exists r. reflexivity.
Qed.

(** The netloc ends before the first [/], [?] and [#]; what follows it is
    the rest, with nothing dropped in between. *)
Lemma splitnetloc_cons (a b : ascii) (r : string) :
  exists k,
    _splitnetloc (String a (String b r)) = (take k r, drop k r) /\
    (forall c i, c = "/" \/ c = "?" \/ c = "#" ->
                 find c r = Some i -> (k <= i)%nat).
Proof.
  unfold _splitnetloc, find_from. cbn [drop fold_left String.length].
  set (delim := match option_map (Nat.add 2) (find "#" r) with
                | Some w => _ | None => _ end).
  assert (Hdelim : (2 <= delim)%nat /\
                   forall c i, c = "/" \/ c = "?" \/ c = "#" ->
                               find c r = Some i -> (delim - 2 <= i)%nat).
  { subst delim.
    destruct (find "/" r) as [i1 | ] eqn:E1, (find "?" r) as [i2 | ] eqn:E2,
             (find "#" r) as [i3 | ] eqn:E3; cbn [option_map];
      (split; [lia | ]);
      intros c i [-> | [-> | ->]] H; rewrite ?E1, ?E2, ?E3 in H;
      try discriminate; injection H as <-; lia. }
  destruct Hdelim as [Hge Hle].
  exists (delim - 2)%nat. split; [ | exact Hle].
  f_equal. destruct delim as [| [| d]]; try lia.
  replace (S (S d) - 2)%nat with d by lia. reflexivity.
Qed.

Lemma take_absent (c : ascii) (s : string) (k : nat) :
  (forall i, find c s = Some i -> (k <= i)%nat) ->
  contains c (take k s) = false.
Proof.
  intros H. destruct (find c s) as [i | ] eqn:E.
  - apply (find_Some_take c s i k E). apply H. reflexivity.
  - apply contains_take, find_None_contains. exact E.
Qed.

Lemma split_once_prefix (c : ascii) (s : string) :
  exists n, fst (split_once c s) = take n s /\
            contains c (fst (split_once c s)) = false.
Proof.
  unfold split_once. destruct (find c s) as [i | ] eqn:E; cbn [fst].
  - exists i. split; [reflexivity | ].
    apply (find_Some_take c s i i E). lia.
  - exists (String.length s). rewrite take_all. split; [reflexivity | ].
    apply find_None_contains. exact E.
Qed.

Lemma strip_fragment_query_prefix (s : string) :
  (exists n, strip_fragment_query s = take n s) /\
  contains "#" (strip_fragment_query s) = false /\
  contains "?" (strip_fragment_query s) = false.
Proof.
  unfold strip_fragment_query.
  set (u := if contains "#" s then fst (split_once "#" s) else s).
  assert (Hu : (exists n, u = take n s) /\ contains "#" u = false).
  { subst u. destruct (contains "#" s) eqn:E.
    - destruct (split_once_prefix "#" s) as [n [Hn Hc]].
      split; [exists n; exact Hn | exact Hc].
    - split; [exists (String.length s); rewrite take_all; reflexivity | exact E]. }
  destruct Hu as [[n Hn] Hhash].
  destruct (contains "?" u) eqn:E.
  - destruct (split_once_prefix "?" u) as [m [Hm Hc]].
    rewrite Hm in *. repeat split.
    + exists (Nat.min m n). rewrite Hn. clear.
      revert m n. induction s as [| a s IH]; intros [| m] [| n];
        simpl; try reflexivity. rewrite IH. reflexivity.
    + apply contains_take. exact Hhash.
    + exact Hc.
  - repeat split; [exists n; exact Hn | exact Hhash | exact E].
Qed.

Lemma splitparams_prefix (s : string) : exists n, fst (_splitparams s) = take n s.
Proof.
  unfold _splitparams.
  destruct (rfind "/" s) as [slash | ].
  - destruct (find_from ";" s slash) as [i | ]; cbn [fst];
      [exists i; reflexivity | exists (String.length s); rewrite take_all; reflexivity].
  - destruct (find ";" s) as [i | ]; cbn [fst]; eexists; reflexivity.
Qed.

Lemma strip_params_prefix (sch s : string) :
  exists n, strip_params sch s = take n s.
Proof.
  unfold strip_params.
  destruct (in_list sch uses_params && contains ";" s);
    [apply splitparams_prefix
    | exists (String.length s); rewrite take_all; reflexivity].
Qed.

(** X6.  The location [get_uri_location] returns holds no [#] and no [?],
    so a query and a fragment, and whatever follows the first [#] or [?] of
    a local path, are dropped; nor does it hold a tab, a carriage return or
    a line feed. *)
Theorem get_uri_location_drops_query_and_fragment
    (chk : netloc_checks) (uri location : string) :
  get_uri_location chk uri = Ok location ->
  contains "#" location = false /\
  contains "?" location = false /\
  all_chars (fun c => negb (unsafe c)) location = true.
Proof.
  intros H. unfold get_uri_location in H.
  destruct (urlparse chk uri) as [p | e] eqn:Hparse; cbn [bind] in H;
    [ | discriminate].
  destruct (urlparse_parts chk uri p Hparse) as [_ [Hnetloc Hpath]].
  set (after_scheme := snd (split_scheme (clean uri))) in *.
  assert (Hsafe : all_chars (fun c => negb (unsafe c)) after_scheme = true).
  { subst after_scheme. unfold split_scheme.
    pose proof (remove_unsafe_safe (lstrip_c0 uri)) as Hclean.
    fold (clean uri) in Hclean.
    destruct (find ":" (clean uri)) as [[| i'] | ]; try exact Hclean.
    destruct (clean uri) as [| first rest] eqn:E; try exact Hclean.
    destruct (is_ascii_alpha first && _); cbn [snd]; [ | exact Hclean].
    apply all_chars_drop. exact Hclean. }
  assert (Hparts :
    contains "#" (fst (netloc_split after_scheme)) = false /\
    contains "?" (fst (netloc_split after_scheme)) = false /\
    all_chars (fun c => negb (unsafe c)) (fst (netloc_split after_scheme)) = true /\
    all_chars (fun c => negb (unsafe c)) (snd (netloc_split after_scheme)) = true).
  { unfold netloc_split.
    destruct (String.eqb (take 2 after_scheme) "//") eqn:E.
    - destruct (starts_with_slashes after_scheme E) as [r Hr]. rewrite Hr in *.
      destruct (splitnetloc_cons "/" "/" r) as [k [-> Hk]]. cbn [fst snd].
      simpl in Hsafe.
      repeat split.
      + apply take_absent. intros i. apply Hk. auto.
      + apply take_absent. intros i. apply Hk. auto.
      + apply all_chars_take. exact Hsafe.
      + apply all_chars_drop. exact Hsafe.
    - cbn [fst snd]. repeat split; try reflexivity. exact Hsafe. }
  destruct Hparts as [Hnh [Hnq [Hns Hrs]]].
  rewrite <- Hnetloc in Hnh, Hnq, Hns.
  assert (Hp : contains "#" (path p) = false /\
               contains "?" (path p) = false /\
               all_chars (fun c => negb (unsafe c)) (path p) = true).
  { rewrite Hpath.
    destruct (strip_params_prefix (scheme p)
                (strip_fragment_query (snd (netloc_split after_scheme))))
      as [n ->].
    destruct (strip_fragment_query_prefix (snd (netloc_split after_scheme)))
      as [[m Hm] [Hh Hq]].
    repeat split.
    - apply contains_take. exact Hh.
    - apply contains_take. exact Hq.
    - apply all_chars_take. rewrite Hm. apply all_chars_take. exact Hrs. }
  destruct Hp as [Hph [Hpq Hps]].
  destruct (String.eqb (netloc p) EmptyString); injection H as <-.
  - repeat split; assumption.
  - rewrite !contains_append, all_chars_append, Hnh, Hnq, Hns, Hph, Hpq, Hps.
    repeat split.
Qed.

Lemma get_uri_location_drops_query_and_fragment_witness :
  contains "#" "bucket/table" = false /\
  contains "?" "bucket/table" = false /\
  all_chars (fun c => negb (unsafe c)) "bucket/table" = true.
Proof.
  exact (get_uri_location_drops_query_and_fragment accepting
           "s3://bucket/table?versionId=3#top" "bucket/table" eq_refl).
Defined.


(** ** Locations the parser leaves as they are *)

Lemma scheme_char_no_bracket (c : ascii) :
  in_scheme_chars c = true ->
  Ascii.eqb c "[" = false /\ Ascii.eqb c "]" = false.
Proof.
  destruct c as [[] [] [] [] [] [] [] []]; vm_compute; intuition congruence.
Qed.

Lemma all_chars_absent (p : ascii -> bool) (c : ascii) (s : string) :
  (forall a, p a = true -> Ascii.eqb a c = false) ->
  all_chars p s = true -> contains c s = false.
Proof.
  intros Hp H. apply contains_false_all.
  apply (all_chars_impl p); [ | exact H].
  intros a Ha. rewrite (Hp a Ha). reflexivity.
Qed.

Lemma plain_absent (s : string) :
  all_chars plain_char s = true ->
  contains "?" s = false /\ contains "#" s = false /\ contains ";" s = false /\
  contains "[" s = false /\ contains "]" s = false /\
  all_chars (fun c => negb (unsafe c)) s = true.
Proof.
  intros H.
  repeat split;
    try (apply (all_chars_absent plain_char); [ | exact H];
         intros a Ha; apply plain_char_spec in Ha; tauto).
  apply (all_chars_impl plain_char); [ | exact H].
  intros a Ha. apply plain_char_spec in Ha as [-> _]. reflexivity.
Qed.

Lemma strip_fragment_query_id (s : string) :
  contains "#" s = false -> contains "?" s = false ->
  strip_fragment_query s = s.
Proof. unfold strip_fragment_query. intros -> ->. reflexivity. Qed.

Lemma strip_params_id (sch s : string) :
  contains ";" s = false -> strip_params sch s = s.
Proof.
  unfold strip_params. intros ->. rewrite andb_false_r. reflexivity.
Qed.

Lemma drop_S_length_append (s : string) (c : ascii) (t : string) :
  drop (S (String.length s)) (s ++ String c t) = t.
Proof. induction s as [| a s IH]; simpl; [reflexivity | exact IH]. Qed.

Lemma split_scheme_valid (sch t : string) :
  valid_scheme sch = true ->
  split_scheme (sch ++ String ":" t) = (lower sch, t).
Proof.
  intros Hvalid. unfold split_scheme.
  assert (Hall : all_chars in_scheme_chars sch = true).
  { destruct sch as [| first tl]; [discriminate | ].
    unfold valid_scheme in Hvalid. apply andb_true_iff in Hvalid as [_ H].
    rewrite all_in_scheme_chars_all in H. exact H. }
  assert (Hcolon : contains ":" sch = false).
  { apply (all_chars_absent in_scheme_chars); [ | exact Hall].
    intros a Ha. apply scheme_char_safe in Ha. tauto. }
  rewrite (find_append_absent ":" sch t Hcolon).
  destruct sch as [| first tl]; [discriminate | ].
  cbn [String.length append]. cbv zeta.
  change (String first (tl ++ String ":" t))
    with (String first tl ++ String ":" t)%string.
  change (S (String.length tl)) with (String.length (String first tl)).
  rewrite drop_S_length_append, take_length_append.
  unfold valid_scheme in Hvalid. rewrite Hvalid. reflexivity.
Qed.

(** X4.  [get_uri_location] takes [scheme://] off and returns what follows
    as it is, when that holds none of [? # ; [ ]], tab, carriage return and
    line feed: the location is the URI without its scheme.  It returns
    nothing else, and it does return when what follows is ASCII. *)
Theorem get_uri_location_strips_scheme (chk : netloc_checks)
    (sch rest : string) :
  valid_scheme sch = true ->
  all_chars plain_char rest = true ->
  (forall location,
      get_uri_location chk (sch ++ "://" ++ rest) = Ok location ->
      location = rest) /\
  (isascii rest = true ->
   get_uri_location chk (sch ++ "://" ++ rest) = Ok rest).
Proof.
  intros Hvalid Hplain.
  set (uri := (sch ++ "://" ++ rest)%string).
  destruct (plain_absent rest Hplain) as [Hq [Hh [Hsemi [Hopen [Hclose Hsafe]]]]].
  assert (Hall : all_chars in_scheme_chars sch = true).
  { destruct sch as [| first tl]; [discriminate | ].
    unfold valid_scheme in Hvalid. apply andb_true_iff in Hvalid as [_ H].
    rewrite all_in_scheme_chars_all in H. exact H. }
  assert (Hclean : clean uri = uri).
  { unfold clean. rewrite lstrip_c0_id.
    - apply remove_unsafe_id. subst uri.
      rewrite all_chars_append. apply andb_true_iff. split.
      + apply (all_chars_impl in_scheme_chars); [ | exact Hall].
        intros a Ha. apply scheme_char_safe in Ha as [-> _]. reflexivity.
      + simpl. exact Hsafe.
    - subst uri. destruct sch as [| first tl]; [discriminate | ].
      unfold valid_scheme in Hvalid. apply andb_true_iff in Hvalid as [Ha _].
      simpl. rewrite (alpha_not_c0 first Ha). reflexivity. }
  assert (Hsplit : split_scheme uri = (lower sch, String "/" (String "/" rest)))
    by (apply split_scheme_valid; exact Hvalid).
  destruct (splitnetloc_cons "/" "/" rest) as [k [Hk _]].
  assert (Hnl : netloc_split (snd (split_scheme (clean uri)))
                = (take k rest, drop k rest)).
  { rewrite Hclean, Hsplit. cbn [snd]. unfold netloc_split. cbn [take].
    change (String.eqb "//" "//") with true. cbv iota. exact Hk. }
  assert (Hloc : forall p, urlparse chk uri = Ok p ->
                           get_uri_location chk uri = Ok rest).
  { intros p Hparse.
    destruct (urlparse_parts chk uri p Hparse) as [_ [Hnetloc Hpath]].
    rewrite Hnl in Hnetloc, Hpath. cbn [fst snd] in Hnetloc, Hpath.
    rewrite strip_fragment_query_id in Hpath
      by (apply contains_drop; assumption).
    rewrite strip_params_id in Hpath by (apply contains_drop; assumption).
    unfold get_uri_location. rewrite Hparse. cbn [bind].
    rewrite Hnetloc, Hpath.
    destruct (String.eqb (take k rest) EmptyString) eqn:E.
    - apply String.eqb_eq in E. rewrite <- (take_drop k rest) at 2.
      rewrite E. reflexivity.
    - rewrite take_drop. reflexivity. }
  split.
  - intros location H.
    destruct (urlparse chk uri) as [p | e] eqn:Hparse.
    + rewrite (Hloc p eq_refl) in H. injection H as <-. reflexivity.
    + unfold get_uri_location in H. fold uri in H. rewrite Hparse in H.
      discriminate.
  - intros Hascii.
    destruct (urlparse_returns chk uri) as [p Hparse].
    + rewrite Hnl. apply contains_take. exact Hopen.
    + rewrite Hnl. apply contains_take. exact Hclose.
    + rewrite Hnl. apply isascii_take. exact Hascii.
    + exact (Hloc p Hparse).
Qed.

Lemma get_uri_location_strips_scheme_witness :
  get_uri_location accepting "gs://my-bucket/data/table.lance"
  = Ok "my-bucket/data/table.lance"%string.
Proof.
  exact (proj2 (get_uri_location_strips_scheme accepting
                  "gs" "my-bucket/data/table.lance" eq_refl eq_refl) eq_refl).
Defined.

(** X5.  A path without a colon that does not begin with [//], with a space
    or with a control character, and holds none of [? # ; [ ]], tab,
    carriage return and line feed, is returned by [get_uri_location] as it
    is, and [get_uri_scheme] calls it a file. *)
Theorem get_uri_location_plain_path (chk : netloc_checks)
    (uri : string) :
  no_leading_c0 uri = true ->
  contains ":" uri = false ->
  String.eqb (take 2 uri) "//" = false ->
  all_chars plain_char uri = true ->
  get_uri_location chk uri = Ok uri /\
  get_uri_scheme chk uri = Ok "file"%string.
Proof.
  intros Hlead Hcolon Hslashes Hplain.
  destruct (plain_absent uri Hplain) as [Hq [Hh [Hsemi [Hopen [Hclose Hsafe]]]]].
  assert (Hclean : clean uri = uri).
  { unfold clean. rewrite (lstrip_c0_id uri Hlead).
    apply remove_unsafe_id. exact Hsafe. }
  assert (Hsplit : split_scheme uri = (EmptyString, uri)).
  { unfold split_scheme. apply find_None_contains in Hcolon.
    rewrite Hcolon. reflexivity. }
  assert (Hnl : netloc_split (snd (split_scheme (clean uri)))
                = (EmptyString, uri)).
  { rewrite Hclean, Hsplit. cbn [snd]. unfold netloc_split.
    rewrite Hslashes. reflexivity. }
  (* the netloc is empty: none of the checks of a netloc is run *)
  destruct (urlparse_returns chk uri) as [p Hparse];
    try (rewrite Hnl; reflexivity).
  split.
  - destruct (urlparse_parts chk uri p Hparse) as [_ [Hnetloc Hpath]].
    rewrite Hnl in Hnetloc, Hpath. cbn [fst snd] in Hnetloc, Hpath.
    rewrite (strip_fragment_query_id uri Hh Hq) in Hpath.
    rewrite (strip_params_id _ uri Hsemi) in Hpath.
    unfold get_uri_location. rewrite Hparse. cbn [bind].
    rewrite Hnetloc, Hpath. reflexivity.
  - exact (proj2 (no_colon_is_file chk uri Hcolon) p Hparse).
Qed.

Lemma get_uri_location_plain_path_witness :
  get_uri_location accepting "~/.lancedb/sample db"
  = Ok "~/.lancedb/sample db"%string /\
  get_uri_scheme accepting "~/.lancedb/sample db" = Ok "file"%string.
Proof.
  exact (get_uri_location_plain_path accepting "~/.lancedb/sample db"
           eq_refl eq_refl eq_refl eq_refl).
Defined.


(** ** The scheme is read without regard to case *)

Lemma lower_char_idem (c : ascii) : lower_char (lower_char c) = lower_char c.
Proof. destruct c as [[] [] [] [] [] [] [] []]; reflexivity. Qed.

Lemma lower_char_valid (c : ascii) :
  (is_ascii_alpha c = true -> is_ascii_alpha (lower_char c) = true) /\
  (in_scheme_chars c = true -> in_scheme_chars (lower_char c) = true).
Proof.
  destruct c as [[] [] [] [] [] [] [] []]; vm_compute; split; congruence.
Qed.

Lemma lower_idem (s : string) : lower (lower s) = lower s.
Proof.
  induction s as [| a s IH]; simpl; [ | rewrite lower_char_idem, IH];
    reflexivity.
Qed.

Lemma lower_valid (s : string) :
  valid_scheme s = true -> valid_scheme (lower s) = true.
Proof.
  destruct s as [| first tl]; [discriminate | ].
  unfold valid_scheme. intros H. apply andb_true_iff in H as [Ha Hs].
  apply andb_true_iff. split.
  - simpl. apply lower_char_valid. exact Ha.
  - revert Hs. generalize (String first tl). intros s.
    induction s as [| a s IH]; simpl; [reflexivity | ].
    intros H. apply andb_true_iff in H as [Hc Hs].
    apply andb_true_iff. split; [apply lower_char_valid; exact Hc | exact (IH Hs)].
Qed.

Lemma remove_unsafe_append (s t : string) :
  remove_unsafe (s ++ t) = (remove_unsafe s ++ remove_unsafe t)%string.
Proof.
  induction s as [| a s IH]; simpl; [reflexivity | ].
  destruct ((code a =? 9)%N || (code a =? 13)%N || (code a =? 10)%N);
    simpl; rewrite IH; reflexivity.
Qed.

Lemma clean_after_scheme (sch t : string) :
  valid_scheme sch = true ->
  clean (sch ++ String ":" t) = (sch ++ String ":" (remove_unsafe t))%string.
Proof.
  intros Hvalid. unfold clean.
  assert (Hall : all_chars in_scheme_chars sch = true).
  { destruct sch as [| first tl]; [discriminate | ].
    unfold valid_scheme in Hvalid. apply andb_true_iff in Hvalid as [_ H].
    rewrite all_in_scheme_chars_all in H. exact H. }
  rewrite lstrip_c0_id.
  - rewrite remove_unsafe_append, (remove_unsafe_id sch); [reflexivity | ].
    apply (all_chars_impl in_scheme_chars); [ | exact Hall].
    intros a Ha. apply scheme_char_safe in Ha as [-> _]. reflexivity.
  - destruct sch as [| first tl]; [discriminate | ].
    unfold valid_scheme in Hvalid. apply andb_true_iff in Hvalid as [Ha _].
    simpl. rewrite (alpha_not_c0 first Ha). reflexivity.
Qed.

Lemma urlparse_same_split (chk : netloc_checks) (u1 u2 : string) :
  split_scheme (clean u1) = split_scheme (clean u2) ->
  urlparse chk u1 = urlparse chk u2.
Proof.
  intros H. unfold urlparse, urlsplit.
  fold (clean u1). fold (clean u2).
  fold (split_scheme (clean u1)). fold (split_scheme (clean u2)).
  rewrite H. reflexivity.
Qed.

(** X7.  The case of the scheme does not matter: a URI and the same URI
    with its scheme in lower case get the same scheme and the same
    location, or the same exception. *)
Theorem scheme_case_insensitive (chk : netloc_checks)
    (sch rest : string) :
  valid_scheme sch = true ->
  get_uri_scheme chk (sch ++ ":" ++ rest)
  = get_uri_scheme chk (lower sch ++ ":" ++ rest) /\
  get_uri_location chk (sch ++ ":" ++ rest)
  = get_uri_location chk (lower sch ++ ":" ++ rest).
Proof.
  intros Hvalid.
  assert (Hparse : urlparse chk (sch ++ ":" ++ rest)
                   = urlparse chk (lower sch ++ ":" ++ rest)).
  { apply urlparse_same_split.
    change (":" ++ rest)%string with (String ":" rest).
    rewrite (clean_after_scheme sch rest Hvalid).
    rewrite (clean_after_scheme (lower sch) rest (lower_valid sch Hvalid)).
    rewrite (split_scheme_valid sch _ Hvalid).
    rewrite (split_scheme_valid (lower sch) _ (lower_valid sch Hvalid)).
    rewrite lower_idem. reflexivity. }
  unfold get_uri_scheme, get_uri_location. rewrite Hparse. split; reflexivity.
Qed.

Lemma scheme_case_insensitive_witness :
  get_uri_scheme accepting "S3A://Bucket/Key"
  = get_uri_scheme accepting "s3a://Bucket/Key" /\
  get_uri_location accepting "S3A://Bucket/Key"
  = get_uri_location accepting "s3a://Bucket/Key".
Proof.
  exact (scheme_case_insensitive accepting "S3A" "//Bucket/Key" eq_refl).
Defined.

End UrlMore.

(* ===================================================================== *)
(** * Further properties of the adapter *)
(* ===================================================================== *)

Module PydanticMore.

Lemma scalar_result_is_scalar (t : py_type) (dt : DataType) :
  _py_type_to_arrow_type t = Ok dt -> Shape.is_scalar dt = true.
Proof.
  destruct t as [[] | | | | | | | ]; simpl; intros H;
    try discriminate; injection H as <-; reflexivity.
Qed.

Lemma scalar_nullable_is_scalar (dt : DataType) :
  Shape.is_scalar dt = true -> Shape.nullable_is_scalar dt = true.
Proof. destruct dt; simpl; intros H; try reflexivity; discriminate. Qed.

Lemma pa_list_not_struct (vt : DataType) (n : Z) (dt : DataType) :
  pa_list_ vt n = Ok dt -> Shape.nullable_is_scalar dt = true.
Proof.
  unfold pa_list_.
  destruct ((n <? - 2 ^ 31) || (2 ^ 31 <=? n)); [discriminate | ].
  destruct (n =? -1); [intros H; injection H as <-; reflexivity | ].
  destruct (n <? 0); [discriminate | ].
  intros H. injection H as <-. reflexivity.
Qed.

Lemma alias_result_shape
    (kind : alias_kind) (origin : py_type) (args : list py_type)
    (dt : DataType) :
  _pydantic_to_arrow_type (Build_FieldInfo (generic_alias kind origin args))
  = Ok dt ->
  Shape.is_scalar dt = true \/
  exists vt, dt = list_ vt /\ Shape.is_scalar vt = true.
Proof.
  simpl. destruct (eq_list origin).
  - intros H. apply bind_Ok in H as [child [_ H]].
    apply bind_Ok in H as [vt [Hvt H]].
    rewrite pa_list_variable in H. injection H as <-.
    right. exists vt. split; [reflexivity | ].
    exact (scalar_result_is_scalar child vt Hvt).
  - destruct (eq_Union origin); [ | discriminate].
    destruct args as [| a0 [| a1 [| a2 rest]]]; try discriminate.
    destruct (eq_NoneType a1); [ | discriminate].
    intros H. left. exact (scalar_result_is_scalar a0 dt H).
Qed.

(** X9.  A parameterized annotation ([List[...]], [Optional[...]] and the
    like) translates to a scalar type or to a list of a scalar type, and to
    nothing else: a list of lists, a list of models and an optional list or
    model are all rejected. *)
Theorem alias_translates_to_scalar_or_list_of_scalar
    (kind : alias_kind) (origin : py_type) (args : list py_type)
    (dt : DataType) :
  _pydantic_to_arrow_type (Build_FieldInfo (generic_alias kind origin args))
  = Ok dt ->
  Shape.is_scalar dt = true \/
  exists vt, dt = list_ vt /\ Shape.is_scalar vt = true.
Proof. exact (alias_result_shape kind origin args dt). Qed.

Lemma alias_translates_to_scalar_or_list_of_scalar_witness :
  Shape.is_scalar (list_ float64) = true \/
  exists vt, list_ float64 = list_ vt /\ Shape.is_scalar vt = true.
Proof.
  exact (alias_translates_to_scalar_or_list_of_scalar
           typing_GenericAlias (builtin c_list) [builtin c_float]
           (list_ float64) eq_refl).
Defined.

(** The type of a field has scalar types at all its nullable fields, and is
    itself scalar when the field is nullable. *)
Lemma field_nullable_is_scalar (fld : FieldInfo) (dt : DataType) :
  _pydantic_to_arrow_type fld = Ok dt ->
  Shape.nullable_is_scalar dt = true /\
  (is_nullable fld = true -> Shape.is_scalar dt = true).
Proof.
  revert fld dt. fix IH 1. intros [ann] dt.
  destruct ann as [c | name mx | m | | name | kind origin args | args | r];
    try (simpl; discriminate).
  - (* a built-in class *)
    destruct c; simpl; intros H; try discriminate; injection H as <-;
      (split; [reflexivity | discriminate]).
  - (* a class that is no model *)
    simpl. destruct mx as [[[n | ] [elementType | ]] | ]; try discriminate;
      intros H; (split; [ | discriminate]).
    exact (pa_list_not_struct _ _ dt H).
  - (* a model: every field of the struct comes from a declared field *)
    destruct m as [name fields mx]. simpl. intros H.
    split; [ | discriminate].
    apply bind_Ok in H as [fs [Hfs H]]. injection H as <-.
    change (forallb Shape.nullable_field_is_scalar fs = true).
    revert fs Hfs. induction fields as [| [n f] rest IHf]; simpl; intros fs Hfs.
    + injection Hfs as <-. reflexivity.
    + apply bind_Ok in Hfs as [fd [Hfd Hfs]].
      apply bind_Ok in Hfd as [dt' [Hdt' Hfd]]. injection Hfd as <-.
      apply bind_Ok in Hfs as [fs' [Hfs' Hfs]]. injection Hfs as <-.
      destruct (IH f dt' Hdt') as [Hdeep Hnull].
      cbn [forallb]. rewrite (IHf fs' Hfs'), andb_true_r.
      change (Shape.nullable_field_is_scalar (field n dt' (is_nullable f)))
        with ((if is_nullable f then Shape.is_scalar dt' else true)
              && Shape.nullable_is_scalar dt').
      rewrite Hdeep, andb_true_r.
      destruct (is_nullable f); [exact (Hnull eq_refl) | reflexivity].
  - (* an alias *)
    intros H.
    destruct (alias_result_shape _ _ _ _ H)
      as [Hs | [vt [-> Hvt]]].
    + split; [apply scalar_nullable_is_scalar; exact Hs | intros _; exact Hs].
    + split; [reflexivity | ].
      unfold is_nullable. simpl annotation. simpl in H.
      destruct kind; [ | discriminate].
      destruct (eq_list origin) eqn:El.
      * destruct origin; simpl in El; discriminate.
      * destruct (eq_Union origin); [ | discriminate].
        destruct args as [| a0 [| a1 [| a2 rest]]]; try discriminate.
        destruct (eq_NoneType a1); [ | discriminate].
        apply scalar_result_is_scalar in H. discriminate.
Qed.

(** X8.  In every schema the translation produces, at every depth of nested
    structs, a nullable field has one of the five scalar types: no list,
    struct or vector field is ever marked nullable. *)
Theorem schema_nullable_fields_are_scalar (model : BaseModel)
    (fields : list Field) :
  pydantic_to_schema model = Ok (schema fields) ->
  forallb Shape.nullable_field_is_scalar fields = true.
Proof.
  intros H. unfold pydantic_to_schema in H.
  apply bind_Ok in H as [fs [Hfs H]]. injection H as <-.
  apply (field_nullable_is_scalar (Build_FieldInfo (model_class model))
           (struct fs)).
  change (_pydantic_to_arrow_type (Build_FieldInfo (model_class model)))
    with (fields <- _pydantic_model_to_fields model ;; Ok (struct fields)).
  rewrite Hfs. reflexivity.
Qed.

Lemma schema_nullable_fields_are_scalar_witness :
  forallb Shape.nullable_field_is_scalar
    [field "id" int64 false;
     field "s" utf8 true;
     field "vec" (list_ float64) false;
     field "inner"
       (struct [field "a" utf8 false; field "b" float64 true]) false]
  = true.
Proof.
  exact (schema_nullable_fields_are_scalar Examples.FooModel _ eq_refl).
Defined.

(** X11.  When the fields declared before some field all translate and that
    field does not, the translation raises that field's exception and
    returns no schema, whatever is declared after it. *)
Theorem first_failing_field_decides (model : BaseModel)
    (before after : list (string * FieldInfo)) (item : string * FieldInfo)
    (e : exn) :
  model_fields model = (before ++ item :: after)%list ->
  (forall i, In i before ->
             exists dt, _pydantic_to_arrow_type (snd i) = Ok dt) ->
  _pydantic_to_arrow_type (snd item) = Raise e ->
  pydantic_to_schema model = Raise e.
Proof.
  intros Hfields Hbefore Hitem.
  destruct (mapM_all_Ok (fun i => _pydantic_to_field (fst i) (snd i)) before)
    as [fields Hdone].
  { intros i Hin. destruct (Hbefore i Hin) as [dt Hdt].
    unfold _pydantic_to_field. rewrite Hdt. eexists. reflexivity. }
  apply pydantic_to_schema_aborts.
  exists before, item, after, fields. repeat split; try assumption.
  unfold _pydantic_to_field. rewrite Hitem. reflexivity.
Qed.

Lemma first_failing_field_decides_witness :
  pydantic_to_schema Shape.Unsupported
  = Raise (TypeError (unsupported_type
                        (generic_alias typing_GenericAlias (builtin c_dict)
                           [builtin c_str; builtin c_int]))).
Proof.
  apply (first_failing_field_decides Shape.Unsupported
           [("id"%string, Build_FieldInfo (builtin c_int))]
           [("x"%string, Build_FieldInfo (builtin c_dict))]
           ("tags"%string,
            Build_FieldInfo (generic_alias typing_GenericAlias (builtin c_dict)
                               [builtin c_str; builtin c_int]))).
  - reflexivity.
  - intros i [<- | []]. exists int64. reflexivity.
  - reflexivity.
Defined.

(** ** Validated vectors *)

Lemma validated_vector_shape (float_validator : py_value -> result py_value)
    (d : Z) (value_type : option DataType) (v out : py_value) :
  validate_vector float_validator d value_type v = Ok out ->
  exists items,
    out = py_instance (vector d value_type) items /\
    Z.of_nat (List.length items) = d.
Proof.
  rewrite (validate_vector_eq float_validator d value_type v).
  destruct (list_items v) as [items | ]; [ | discriminate].
  destruct (Z.of_nat (List.length items) =? d) eqn:E; [ | discriminate].
  intros H. apply bind_Ok in H as [ys [Hys H]]. injection H as <-.
  exists ys. split; [reflexivity | ].
  rewrite (mapM_length float_validator items ys Hys).
  apply Z.eqb_eq. exact E.
Qed.

(** X12.  Whatever validates as a [vector(d, value_type)] comes out as an
    instance of that class holding exactly [d] items. *)
Theorem validated_vector_has_dim (float_validator : py_value -> result py_value)
    (d : Z) (value_type : option DataType) (v out : py_value) :
  validate_vector float_validator d value_type v = Ok out ->
  exists items,
    out = py_instance (vector d value_type) items /\
    Z.of_nat (List.length items) = d.
Proof. exact (validated_vector_shape float_validator d value_type v out). Qed.

Lemma validated_vector_has_dim_witness :
  exists items,
    py_instance (vector 2 None) [py_float "0.5"; py_float "1.5"]
    = py_instance (vector 2 None) items /\
    Z.of_nat (List.length items) = 2.
Proof.
  exact (validated_vector_has_dim Examples.strict_float 2 None
           (py_list [py_float "0.5"; py_float "1.5"]) _ eq_refl).
Defined.

Lemma mapM_fixpoint (f : py_value -> result py_value)
    (items out : list py_value) :
  (forall x y, f x = Ok y -> f y = Ok y) ->
  mapM f items = Ok out -> mapM f out = Ok out.
Proof.
  intros Hf H. apply mapM_Ok_Forall2 in H.
  induction H as [| x y l ys Hxy _ IH]; simpl; [reflexivity | ].
  rewrite (Hf x y Hxy). simpl. rewrite IH. reflexivity.
Qed.

(** X13.  When the float validator accepts its own outputs unchanged, a
    validated vector validates again, to itself. *)
Theorem validated_vector_revalidates
    (float_validator : py_value -> result py_value)
    (d : Z) (value_type : option DataType) (v out : py_value) :
  (forall x y, float_validator x = Ok y -> float_validator y = Ok y) ->
  validate_vector float_validator d value_type v = Ok out ->
  validate_vector float_validator d value_type out = Ok out.
Proof.
  intros Hidem H.
  destruct (validated_vector_shape float_validator d value_type v out H)
    as [ys [-> Hlen]].
  rewrite (validate_vector_eq float_validator d value_type v) in H.
  destruct (list_items v) as [items | ]; [ | discriminate].
  destruct (Z.of_nat (List.length items) =? d); [ | discriminate].
  apply bind_Ok in H as [ys' [Hys H]]. injection H as <-.
  rewrite (validate_vector_eq float_validator d value_type
             (py_instance (vector d value_type) ys')).
  cbn [list_items]. apply Z.eqb_eq in Hlen. rewrite Hlen.
  rewrite (mapM_fixpoint float_validator items ys' Hidem Hys). reflexivity.
Qed.

Lemma validated_vector_revalidates_witness :
  validate_vector Examples.strict_float 2 None
    (py_instance (vector 2 None) [py_float "0.5"; py_float "1.5"])
  = Ok (py_instance (vector 2 None) [py_float "0.5"; py_float "1.5"]).
Proof.
  apply (validated_vector_revalidates Examples.strict_float 2 None
           (py_list [py_float "0.5"; py_float "1.5"])).
  - intros x y. destruct x; simpl; intros H; try discriminate.
    injection H as <-. reflexivity.
  - reflexivity.
Defined.

End PydanticMore.
